(** * opensir/models/model.py: the generic compartmental model

    A shallow embedding of [Model] (parameter store, [solve], [r0], [fit])
    and of [call_solver], with the properties of the specification proved
    about it.

    Conventions of the embedding.
    - A float64 is a finite value, carried as an exact rational, or one of
      the three IEEE special values; rounding, overflow, underflow and the
      sign of zero are left out: statements about computed values hold in
      exact arithmetic.  A Python float and a numpy float are one type.
    - A Python int is kept apart from a float, because the module treats
      the two differently: numpy gives an all-integer list an integer
      array, into which floats are stored truncated, and Python's division
      raises OverflowError on ints too large for a float.  A Python int is
      unbounded; an integer of an array has 64 bits, signed.
    - What numpy makes of a list that holds an int outside that range, or
      an item that is not a number (an array of unsigned integers, of
      Python objects, of strings), is not represented.  A computation that
      needs such an array stops there, in [Unrepresented], with the
      instance as it is at that point; [Unrepresented] is not an exception
      of Python, and nothing is said of what Python does from there on.
    - A Python object is a scalar ([None], a float, an int, a string), a
      list of scalars, or a one-dimensional array of floats or of integers;
      nested sequences are not represented.
    - A method is a computation over the instance: it maps the instance
      state to an outcome (a returned value or a raised exception) and
      the state the instance is left in.
    - [odeint] and [curve_fit] belong to scipy: they are parameters of the
      development.  [curve_fit] calls its objective back, so it is given as
      a tree of evaluations. *)

From Stdlib Require Import List ZArith QArith Qabs String Bool Lia Lqa.
Import ListNotations.

(** ** float64 *)

Inductive float64 : Type :=
| Fin (q : Q)
| PInf
| NInf
| NaN.

Module F64.

Definition zero : float64 := Fin 0.
Definition one : float64 := Fin 1.

Definition of_nat (n : nat) : float64 := Fin (inject_Z (Z.of_nat n)).

(** an integer as a float, exactly *)
Definition of_Z (z : Z) : float64 := Fin (inject_Z z).

(** sign of an infinity selected by a three-way comparison with zero *)
Definition signed_inf (c : comparison) (neg : bool) : float64 :=
  match c with
  | Eq => NaN
  | Gt => if neg then NInf else PInf
  | Lt => if neg then PInf else NInf
  end.

Definition add (x y : float64) : float64 :=
  match x, y with
  | NaN, _ | _, NaN => NaN
  | PInf, NInf | NInf, PInf => NaN
  | PInf, _ | _, PInf => PInf
  | NInf, _ | _, NInf => NInf
  | Fin a, Fin b => Fin (a + b)
  end.

Definition mul (x y : float64) : float64 :=
  match x, y with
  | NaN, _ | _, NaN => NaN
  | Fin a, Fin b => Fin (a * b)
  | PInf, PInf | NInf, NInf => PInf
  | PInf, NInf | NInf, PInf => NInf
  | PInf, Fin a | Fin a, PInf => signed_inf (a ?= 0) false
  | NInf, Fin a | Fin a, NInf => signed_inf (a ?= 0) true
  end.

(** numpy's true division: a zero divisor gives an infinity or nan *)
Definition div (x y : float64) : float64 :=
  match x, y with
  | NaN, _ | _, NaN => NaN
  | Fin a, Fin b =>
      match b ?= 0 with
      | Eq => signed_inf (a ?= 0) false
      | _ => Fin (a / b)
      end
  | Fin _, PInf | Fin _, NInf => Fin 0
  | PInf, Fin b => match b ?= 0 with Lt => NInf | _ => PInf end
  | NInf, Fin b => match b ?= 0 with Lt => PInf | _ => NInf end
  | _, _ => NaN
  end.

(** [x > y]; every comparison with nan is false *)
Definition gtb (x y : float64) : bool :=
  match x, y with
  | NaN, _ | _, NaN => false
  | Fin a, Fin b => match a ?= b with Gt => true | _ => false end
  | PInf, PInf => false
  | PInf, _ => true
  | Fin _, NInf => true
  | _, _ => false
  end.

Definition is_zero (x : float64) : bool :=
  match x with
  | Fin a => match a ?= 0 with Eq => true | _ => false end
  | _ => false
  end.

(** np.sum over a flat array *)
Definition sum (xs : list float64) : float64 := fold_left add xs zero.

(** equality of values, finite ones compared as rationals *)
Definition eqv (x y : float64) : Prop :=
  match x, y with
  | Fin a, Fin b => a == b
  | PInf, PInf | NInf, NInf | NaN, NaN => True
  | _, _ => False
  end.

End F64.

(** ** Python objects and exceptions *)

Inductive scalar : Type :=
| SNone
| SNum (x : float64)
| SStr (s : string)
| SInt (z : Z).

Inductive pyobj : Type :=
| Scalar (v : scalar)
| PyList (l : list scalar)
| NdArray (a : list float64)
| NdIntArray (a : list Z).

Definition PyNone : pyobj := Scalar SNone.

Inductive exn : Type :=
| InvalidParameterError
| InvalidNumberOfParametersError
| AssertionError
| TypeError
| ValueError
| IndexError
| ZeroDivisionError
| OverflowError
| RuntimeError
| Exception_
| Unrepresented  (* not Python's: where the embedding stops *).

Inductive outcome (A : Type) : Type :=
| Returns (a : A)
| Raises (e : exn).
Arguments Returns {A} a.
Arguments Raises {A} e.

Definition matrix : Type := list (list float64).

(** what a method hands back: [return self] or a plain value *)
Inductive retval : Type :=
| Self
| Value (v : float64).

(** ** The instance *)

(** the attributes assigned in [Model.__init__] *)
Record Model : Type := mkModel {
  sol : option matrix;
  p : pyobj;
  pop : scalar;
  w0 : pyobj;
  pcov : option matrix;
  fit_input : option Z
}.

(** [Model.__init__] *)
Definition init : Model :=
  {| sol := None; p := PyNone; pop := SNone; w0 := PyNone;
     pcov := None; fit_input := None |}.

(** ** Computations over the instance *)

Definition M (A : Type) : Type := Model -> outcome A * Model.

Definition ret {A} (a : A) : M A := fun self => (Returns a, self).

Definition raise {A} (e : exn) : M A := fun self => (Raises e, self).

Definition bind {A B} (c : M A) (k : A -> M B) : M B :=
  fun self =>
    match c self with
    | (Returns a, self') => k a self'
    | (Raises e, self') => (Raises e, self')
    end.

(** a pure library call that may raise *)
Definition lift {A} (o : outcome A) : M A := fun self => (o, self).

(** [try: body  except: handler], the bare [except] taking every exception;
    what [body] assigned before raising stays assigned *)
Definition try_except {A} (body : M A) (handler : M A) : M A :=
  fun self =>
    match body self with
    | (Returns a, self') => (Returns a, self')
    | (Raises _, self') => handler self'
    end.

Declare Scope py_scope.
Delimit Scope py_scope with py.
Notation "x <- c ;; k" := (bind c (fun x => k))
  (at level 61, c at next level, right associativity) : py_scope.
Notation "c ;;; k" := (bind c (fun _ => k))
  (at level 61, right associativity) : py_scope.
Open Scope py_scope.

Definition get {A} (f : Model -> A) : M A := fun self => (Returns (f self), self).

Definition set_p (v : pyobj) : M unit :=
  fun self => (Returns tt,
    {| sol := sol self; p := v; pop := pop self; w0 := w0 self;
       pcov := pcov self; fit_input := fit_input self |}).

Definition set_pop (v : scalar) : M unit :=
  fun self => (Returns tt,
    {| sol := sol self; p := p self; pop := v; w0 := w0 self;
       pcov := pcov self; fit_input := fit_input self |}).

Definition set_w0 (v : pyobj) : M unit :=
  fun self => (Returns tt,
    {| sol := sol self; p := p self; pop := pop self; w0 := v;
       pcov := pcov self; fit_input := fit_input self |}).

Definition set_sol (v : matrix) : M unit :=
  fun self => (Returns tt,
    {| sol := Some v; p := p self; pop := pop self; w0 := w0 self;
       pcov := pcov self; fit_input := fit_input self |}).

Definition set_pcov (v : matrix) : M unit :=
  fun self => (Returns tt,
    {| sol := sol self; p := p self; pop := pop self; w0 := w0 self;
       pcov := Some v; fit_input := fit_input self |}).

(** ** Python and numpy primitives used by the module *)

Fixpoint chars (s : string) : list scalar :=
  match s with
  | EmptyString => []
  | String c s' => SStr (String c EmptyString) :: chars s'
  end.

(** [for param in obj]: the items, or TypeError when [obj] is not iterable *)
Definition py_iter (obj : pyobj) : outcome (list scalar) :=
  match obj with
  | Scalar (SStr s) => Returns (chars s)
  | Scalar _ => Raises TypeError
  | PyList l => Returns l
  | NdArray a => Returns (map SNum a)
  | NdIntArray a => Returns (map SInt a)
  end.

(** [len(obj)] *)
Definition py_len (obj : pyobj) : outcome nat :=
  match obj with
  | Scalar (SStr s) => Returns (String.length s)
  | Scalar _ => Raises TypeError
  | PyList l => Returns (List.length l)
  | NdArray a => Returns (List.length a)
  | NdIntArray a => Returns (List.length a)
  end.

(** [param > 0] *)
Definition py_gt0 (param : scalar) : outcome bool :=
  match param with
  | SNum x => Returns (F64.gtb x F64.zero)
  | SInt z => Returns (0 <? z)%Z
  | SNone | SStr _ => Raises TypeError
  end.

(** [assert b] *)
Definition py_assert (b : bool) : M unit :=
  if b then ret tt else raise AssertionError.

(** [for x in items: body x] *)
Fixpoint for_each {A} (items : list A) (body : A -> M unit) : M unit :=
  match items with
  | [] => ret tt
  | x :: rest => body x ;;; for_each rest body
  end.

(** the value of a number, an int converted exactly *)
Definition as_number (v : scalar) : option float64 :=
  match v with
  | SNum x => Some x
  | SInt z => Some (F64.of_Z z)
  | SNone | SStr _ => None
  end.

(** the values of a flat sequence of numbers, ints converted; [None] when
    an item is not a number *)
Fixpoint numbers (l : list scalar) : option (list float64) :=
  match l with
  | [] => Some []
  | SNum x :: rest =>
      match numbers rest with
      | Some xs => Some (x :: xs)
      | None => None
      end
  | SInt z :: rest =>
      match numbers rest with
      | Some xs => Some (F64.of_Z z :: xs)
      | None => None
      end
  | _ :: _ => None
  end.

Definition int64_min : Z := (- 2 ^ 63)%Z.
Definition int64_max : Z := (2 ^ 63 - 1)%Z.

Definition in_int64 (z : Z) : bool :=
  ((int64_min <=? z) && (z <=? int64_max))%Z.

(** a Python int that no 64-bit integer holds *)
Definition beyond_int64 (v : scalar) : bool :=
  match v with
  | SInt z => negb (in_int64 z)
  | _ => false
  end.

Fixpoint ints (l : list scalar) : option (list Z) :=
  match l with
  | [] => Some []
  | SInt z :: rest =>
      match ints rest with
      | Some zs => Some (z :: zs)
      | None => None
      end
  | _ :: _ => None
  end.

(** 64-bit integer arithmetic wraps around *)
Definition wrap64 (z : Z) : Z := ((z - int64_min) mod 2 ^ 64 + int64_min)%Z.

Definition sum64 (zs : list Z) : Z := wrap64 (fold_left Z.add zs 0%Z).

(** [np.sum(obj)].  Floats add up to a float, 64-bit integers to a 64-bit
    integer, which is carried as the float of the same value: what the
    module does with the sum, dividing the initial conditions by it and
    multiplying the solution by it, does not tell the two apart. *)
Definition np_sum (obj : pyobj) : outcome float64 :=
  match obj with
  | Scalar (SNum x) => Returns x
  | Scalar (SInt z) =>
      if in_int64 z then Returns (F64.of_Z z) else Raises Unrepresented
  | Scalar _ => Raises TypeError
  | PyList l =>
      match numbers l with
      | None => Raises TypeError
      | Some xs =>
          if existsb beyond_int64 l then Raises Unrepresented
          else match l, ints l with
               | _ :: _, Some zs => Returns (F64.of_Z (sum64 zs))
               | _, _ => Returns (F64.sum xs)
               end
      end
  | NdArray a => Returns (F64.sum a)
  | NdIntArray a => Returns (F64.of_Z (sum64 a))
  end.

(** the bound of the floats: a value that reaches it in absolute value has
    no float next to it, [2^1024 - 2^970] being half-way between the
    largest float and [2^1024] *)
Definition float_bound : Q := inject_Z (2 ^ 1024 - 2 ^ 970).

Definition too_large (v : Q) : bool := Qle_bool float_bound (Qabs v).

(** a Python int that [float()] cannot convert *)
Definition int_too_large (v : scalar) : bool :=
  match v with
  | SInt z => too_large (inject_Z z)
  | _ => false
  end.

(** [a / b].  Items of an array divide as numpy scalars: a zero divisor
    gives an infinity or nan.  Items of a list divide as Python numbers:
    two ints give their quotient, ZeroDivisionError on a zero divisor and
    OverflowError when the quotient is too large for a float; with a float
    among them an int is converted first, OverflowError when it is too
    large, and a zero divisor is ZeroDivisionError. *)
Definition py_truediv (numpy : bool) (a b : scalar) : outcome float64 :=
  match as_number a, as_number b with
  | Some x, Some y =>
      if numpy then Returns (F64.div x y)
      else
        match a, b with
        | SInt m, SInt n =>
            if (n =? 0)%Z then Raises ZeroDivisionError
            else if too_large (inject_Z m / inject_Z n)
                 then Raises OverflowError
                 else Returns (Fin (inject_Z m / inject_Z n))
        | _, _ =>
            if int_too_large a || int_too_large b then Raises OverflowError
            else if F64.is_zero y then Raises ZeroDivisionError
            else Returns (F64.div x y)
        end
  | _, _ => Raises TypeError
  end.

(** [obj / d] with [d] the stored population, a numpy scalar when it
    comes from [np.sum]: the division is numpy's, elementwise, a list read
    as an array.  A population that is a Python int does not divide a
    list. *)
Definition np_truediv (obj : pyobj) (d : scalar) : outcome pyobj :=
  match d with
  | SInt n =>
      match obj with
      | Scalar v =>
          match py_truediv false v d with
          | Returns x => Returns (Scalar (SNum x))
          | Raises e => Raises e
          end
      | PyList _ => Raises TypeError
      | NdArray a =>
          if in_int64 n
          then Returns (NdArray (map (fun x => F64.div x (F64.of_Z n)) a))
          else Raises Unrepresented
      | NdIntArray a =>
          if in_int64 n
          then Returns
                 (NdArray (map (fun z => F64.div (F64.of_Z z) (F64.of_Z n)) a))
          else Raises Unrepresented
      end
  | SNum d =>
      match obj with
      | Scalar (SNum x) => Returns (Scalar (SNum (F64.div x d)))
      | Scalar (SInt z) =>
          if in_int64 z then Returns (Scalar (SNum (F64.div (F64.of_Z z) d)))
          else Raises Unrepresented
      | Scalar _ => Raises TypeError
      | PyList l =>
          match numbers l with
          | None => Raises TypeError
          | Some xs =>
              if existsb beyond_int64 l then Raises Unrepresented
              else Returns (NdArray (map (fun x => F64.div x d) xs))
          end
      | NdArray a => Returns (NdArray (map (fun x => F64.div x d) a))
      | NdIntArray a =>
          Returns (NdArray (map (fun z => F64.div (F64.of_Z z) d) a))
      end
  | SNone | SStr _ => Raises TypeError
  end.

(** ** Model variants *)

(** the derivative function of a variant: state, time, parameters *)
Definition deriv : Type := list float64 -> float64 -> pyobj -> list float64.

(** what a subclass declares or overrides *)
Record ModelKind : Type := mkKind {
  NUM_PARAMS : nat;
  NUM_IC : nat;
  _model : option deriv;
  _update_ic : M unit
}.

(** the base class: four parameters, four compartments, a [_model] property
    that raises, and an [_update_ic] that does nothing *)
Definition BaseModel : ModelKind :=
  {| NUM_PARAMS := 4; NUM_IC := 4; _model := None; _update_ic := ret tt |}.

(** reading the property [self._model] *)
Definition get_model (K : ModelKind) : M deriv :=
  match _model K with
  | Some f => ret f
  | None => raise Exception_
  end.

(** ** [Model.set_params] *)

(** the body of the validation loop: [assert param > 0] *)
Definition assert_positive (param : scalar) : M unit :=
  b <- lift (py_gt0 param) ;; py_assert b.

Definition set_params (K : ModelKind) (p_ initial_conds : pyobj) : M retval :=
  let num_params := NUM_PARAMS K in
  let num_ic := NUM_IC K in
  try_except
    (items <- lift (py_iter p_) ;; for_each items assert_positive)
    (raise InvalidParameterError) ;;;
  n <- lift (py_len p_) ;;
  mismatch <- (if negb (n =? num_params)%nat then ret true
               else k <- lift (py_len initial_conds) ;;
                    ret (negb (k =? num_ic)%nat)) ;;
  if mismatch : bool then raise InvalidNumberOfParametersError
  else
    set_p p_ ;;;
    s <- lift (np_sum initial_conds) ;;
    set_pop (SNum s) ;;;
    pop_ <- get pop ;;
    w <- lift (np_truediv initial_conds pop_) ;;
    set_w0 w ;;;
    ret Self.

(** ** Module constants *)

Definition ABSERR : float64 := Fin (1 # 100000000).
Definition RELERR : float64 := Fin (1 # 1000000).
Definition DAYS : nat := 7.
Definition NUMPOINTS : nat := DAYS.

(** ** More numpy *)

Definition np_sub (x y : float64) : float64 :=
  F64.add x (F64.mul (Fin (-1)) y).

(** [np.linspace(start, stop, num)], end point included: the samples
    [start + i * step] with [step = (stop - start) / (num - 1)], the last
    one replaced by [stop]; a single sample is [start + 0 * (stop - start)] *)
Definition linspace (start stop : float64) (num : nat) : list float64 :=
  let delta := np_sub stop start in
  match num with
  | O => []
  | S O => [F64.add (F64.mul (F64.of_nat 0) delta) start]
  | S (S _ as d) =>
      let step := F64.div delta (F64.of_nat d) in
      map (fun i => F64.add (F64.mul (F64.of_nat i) step) start) (seq 0 d)
      ++ [stop]
  end.

(** [np.insert(sol, 0, t, axis=1)]: [t] becomes the first column *)
Fixpoint insert_column (t : list float64) (rows : matrix) : outcome matrix :=
  match t, rows with
  | [], [] => Returns []
  | x :: t', r :: rows' =>
      match insert_column t' rows' with
      | Returns m => Returns ((x :: r) :: m)
      | Raises e => Raises e
      end
  | _, _ => Raises ValueError
  end.

(** [sol[:, 1:] *= c] *)
Definition scale_tail (c : float64) (rows : matrix) : matrix :=
  map (fun r => match r with
                | [] => []
                | x :: ys => x :: map (fun y => F64.mul y c) ys
                end) rows.

Definition imul_tail (c : scalar) (rows : matrix) : outcome matrix :=
  match c with
  | SNum x => Returns (scale_tail x rows)
  | SInt z =>
      if in_int64 z then Returns (scale_tail (F64.of_Z z) rows)
      else Raises Unrepresented
  | SNone | SStr _ => Raises TypeError
  end.

(** [obj[i]] for a non-negative [i] *)
Definition py_getitem (obj : pyobj) (i : nat) : outcome scalar :=
  let pick (l : list scalar) :=
    match nth_error l i with
    | Some v => Returns v
    | None => Raises IndexError
    end in
  match obj with
  | Scalar (SStr s) => pick (chars s)
  | Scalar _ => Raises TypeError
  | PyList l => pick l
  | NdArray a => pick (map SNum a)
  | NdIntArray a => pick (map SInt a)
  end.

Definition is_array (obj : pyobj) : bool :=
  match obj with
  | NdArray _ | NdIntArray _ => true
  | Scalar _ | PyList _ => false
  end.

(** [np.array(obj)] as a one-dimensional array.  A list of ints, not
    empty, gives an integer array; a list of numbers with a float among
    them, or the empty list, gives a float array, the ints converted.  A
    scalar gives a zero-dimensional array, which no list indexes, so the
    IndexError of the indexing that follows in [fit] is raised here.  A
    list holding an int outside the 64-bit range, or an item that is not a
    number, gives an array the embedding does not represent. *)
Definition np_array (obj : pyobj) : outcome pyobj :=
  match obj with
  | Scalar _ => Raises IndexError
  | PyList l =>
      if existsb beyond_int64 l then Raises Unrepresented
      else match l, ints l with
           | _ :: _, Some zs => Returns (NdIntArray zs)
           | _, _ =>
               match numbers l with
               | Some xs => Returns (NdArray xs)
               | None => Raises Unrepresented
               end
           end
  | NdArray a => Returns (NdArray a)
  | NdIntArray a => Returns (NdIntArray a)
  end.

(** the entries of an array as floats, as scipy reads an initial guess *)
Definition array_floats (arr : pyobj) : list float64 :=
  match arr with
  | NdArray a => a
  | NdIntArray a => map F64.of_Z a
  | Scalar _ | PyList _ => []
  end.

(** a float stored into an integer array: truncated toward zero; outside
    the 64-bit range, and for nan and the infinities, the least integer,
    as the cast gives on x86 *)
Definition to_int64 (x : float64) : Z :=
  match x with
  | Fin v =>
      let z := Z.quot (Qnum v) (Z.pos (Qden v)) in
      if in_int64 z then z else int64_min
  | PInf | NInf | NaN => int64_min
  end.

Definition count_true (mask : list bool) : nat :=
  List.length (filter (fun b => b) mask).

(** a list of booleans indexes an array of its own length; the empty list
    is read as an empty list of integer positions and indexes any array,
    selecting nothing *)
Definition index_fits (mask : list bool) (n : nat) : bool :=
  match mask with
  | [] => true
  | _ :: _ => (List.length mask =? n)%nat
  end.

(** the entries of [a] that [mask] selects *)
Fixpoint select {A} (a : list A) (mask : list bool) : list A :=
  match a, mask with
  | x :: a', b :: mask' => if b then x :: select a' mask' else select a' mask'
  | _, _ => []
  end.

(** [a[mask]] *)
Definition mask_select {A} (a : list A) (mask : list bool)
  : outcome (list A) :=
  if index_fits mask (List.length a) then Returns (select a mask)
  else Raises IndexError.

(** the selected entries of [a] replaced, in order, by [vals] *)
Fixpoint overwrite {A} (a : list A) (mask : list bool) (vals : list A)
  : list A :=
  match a, mask with
  | x :: a', b :: mask' =>
      if b then
        match vals with
        | v :: vals' => v :: overwrite a' mask' vals'
        | [] => x :: overwrite a' mask' []
        end
      else x :: overwrite a' mask' vals
  | _, _ => a
  end.

(** numpy broadcasting of the assigned values to [k] selected places *)
Definition broadcast_to {A} (k : nat) (vals : list A) : outcome (list A) :=
  if (List.length vals =? k)%nat then Returns vals
  else match vals with
       | [v] => Returns (repeat v k)
       | _ => Raises ValueError
       end.

(** [a[mask] = vals], the values already of the array's type *)
Definition mask_assign {A} (a : list A) (mask : list bool) (vals : list A)
  : outcome (list A) :=
  if index_fits mask (List.length a) then
    match broadcast_to (count_true mask) vals with
    | Returns vs => Returns (overwrite a mask vs)
    | Raises e => Raises e
    end
  else Raises IndexError.

(** [arr[mask]] on an object *)
Definition getitem_mask (arr : pyobj) (mask : list bool) : outcome pyobj :=
  match arr with
  | NdArray a =>
      match mask_select a mask with
      | Returns a' => Returns (NdArray a')
      | Raises e => Raises e
      end
  | NdIntArray a =>
      match mask_select a mask with
      | Returns a' => Returns (NdIntArray a')
      | Raises e => Raises e
      end
  | PyList _ | Scalar _ => Raises TypeError
  end.

(** [obj[mask] = vals] on a stored object, in place: floats go into a float
    array as they are, into an integer array truncated *)
Definition setitem_mask (obj : pyobj) (mask : list bool) (vals : list float64)
  : outcome pyobj :=
  match obj with
  | NdArray a =>
      match mask_assign a mask vals with
      | Returns a' => Returns (NdArray a')
      | Raises e => Raises e
      end
  | NdIntArray a =>
      match mask_assign a mask (map to_int64 vals) with
      | Returns a' => Returns (NdIntArray a')
      | Raises e => Raises e
      end
  | PyList _ | Scalar _ => Raises TypeError
  end.

(** what the objective hands to the optimiser *)
Inductive prediction : Type :=
| Pred1 (ys : list float64)
| Pred3 (ys : list (list (list float64))).

Fixpoint column (i : nat) (rows : matrix) : outcome (list float64) :=
  match rows with
  | [] => Returns []
  | r :: rows' =>
      match nth_error r i, column i rows' with
      | Some v, Returns vs => Returns (v :: vs)
      | None, _ => Raises IndexError
      | _, Raises e => Raises e
      end
  end.

(** the width of an array is read off its first row; an array without rows
    has width 0 here *)
Definition width (rows : matrix) : nat :=
  match rows with
  | [] => O
  | r :: _ => List.length r
  end.

(** [sol_mod[:, idx] * c]: [None] inserts an axis, an integer takes a
    column, counted from the end when negative *)
Definition take_scaled (rows : matrix) (idx : option Z) (c : float64)
  : outcome prediction :=
  match idx with
  | None =>
      Returns (Pred3 (map (fun r => [map (fun y => F64.mul y c) r]) rows))
  | Some i =>
      let k := Z.of_nat (width rows) in
      let j := if (i <? 0)%Z then (k + i)%Z else i in
      if ((0 <=? j)%Z && (j <? k)%Z)%bool then
        match column (Z.to_nat j) rows with
        | Returns ys => Returns (Pred1 (map (fun y => F64.mul y c) ys))
        | Raises e => Raises e
        end
      else Raises IndexError
  end.

(** [(np.zeros(n), np.ones(n) * 100)] *)
Definition fit_bounds (n : nat) : list float64 * list float64 :=
  (repeat F64.zero n, map (fun x => F64.mul x (Fin 100)) (repeat F64.one n)).

(** ** scipy's optimiser, seen from its caller *)

(** [curve_fit] asks for the objective at trial vectors, then returns the
    optimum with its covariance or raises *)
Inductive optimizer : Type :=
| Evaluate (par_fit : list float64) (k : prediction -> optimizer)
| Converged (par_opt : list float64) (cov : matrix)
| GiveUp (e : exn).

Section Scipy.

(** [odeint(func, y0, t, args=(p,), atol, rtol)] *)
Variable odeint :
  deriv -> pyobj -> list float64 -> pyobj -> float64 -> float64 -> outcome matrix.

(** [curve_fit(f, xdata, ydata, p0, bounds)], the calls to [f] left to the
    tree *)
Variable curve_fit :
  list float64 -> list float64 -> list float64 ->
  list float64 * list float64 -> optimizer.

(** ** [call_solver] *)

Definition call_solver (func : deriv) (p_ w0_ : pyobj) (t : list float64)
  : outcome matrix :=
  match odeint func w0_ t p_ ABSERR RELERR with
  | Returns sol_ => insert_column t sol_
  | Raises e => Raises e
  end.

(** ** [Model.solve] *)

Definition solve (K : ModelKind) (tf_days : float64) (numpoints : nat)
  : M retval :=
  let tspan := linspace (Fin 0) tf_days numpoints in
  func <- get_model K ;;
  p_ <- get p ;;
  w0_ <- get w0 ;;
  sol_ <- lift (call_solver func p_ w0_ tspan) ;;
  pop_ <- get pop ;;
  sol_ <- lift (imul_tail pop_ sol_) ;;
  set_sol sol_ ;;;
  ret Self.

(** ** [Model.fetch] *)

Definition fetch : M (option matrix) := get sol.

(** ** [Model.r0] *)

Definition r0 : M retval :=
  p_ <- get p ;;
  a <- lift (py_getitem p_ 0) ;;
  b <- lift (py_getitem p_ 1) ;;
  v <- lift (py_truediv (is_array p_) a b) ;;
  ret (Value v).

(** ** [Model.fit] *)

(** the closure [function_handle(t, *par_fit, pop=population)] *)
Definition function_handle (K : ModelKind) (fit_index : list bool)
  (population : float64) (t : list float64) (par_fit : list float64)
  : M prediction :=
  p_ <- get p ;;
  params <- lift (np_array p_) ;;
  params <- lift (setitem_mask params fit_index par_fit) ;;
  set_p params ;;;
  _update_ic K ;;;
  func <- get_model K ;;
  p_ <- get p ;;
  w0_ <- get w0 ;;
  sol_mod <- lift (call_solver func p_ w0_ t) ;;
  idx <- get fit_input ;;
  lift (take_scaled sol_mod idx population).

(** [curve_fit] running against the instance: an exception of the objective
    leaves through the optimiser *)
Fixpoint run_optimizer (f : list float64 -> M prediction) (o : optimizer)
  : M (list float64 * matrix) :=
  match o with
  | Evaluate par_fit k => y <- f par_fit ;; run_optimizer f (k y)
  | Converged par_opt cov => ret (par_opt, cov)
  | GiveUp e => raise e
  end.

(** [[False for i in range(n)]] with entry 0 set to [True] *)
Definition default_index (n : nat) : outcome (list bool) :=
  match n with
  | O => Raises IndexError
  | S n' => Returns (true :: repeat false n')
  end.

Definition fit (K : ModelKind) (t_obs n_i_obs : list float64)
  (population : float64) (fit_index : option (list bool)) : M retval :=
  fit_index <- match fit_index with
               | None => p_ <- get p ;;
                         n <- lift (py_len p_) ;;
                         lift (default_index n)
               | Some idx => ret idx
               end ;;
  p_ <- get p ;;
  arr <- lift (np_array p_) ;;
  fit_params0 <- lift (getitem_mask arr fit_index) ;;
  let bounds := fit_bounds (List.length (array_floats fit_params0)) in
  res <- run_optimizer (function_handle K fit_index population t_obs)
           (curve_fit t_obs n_i_obs (array_floats fit_params0) bounds) ;;
  let '(par_opt, cov) := res in
  p_ <- get p ;;
  p_ <- lift (setitem_mask p_ fit_index par_opt) ;;
  set_p p_ ;;;
  set_pcov cov ;;;
  ret Self.

End Scipy.

(** ** Notions of the specification *)

(** a number strictly greater than zero *)
Definition strictly_positive (x : scalar) : Prop :=
  match x with
  | SNum (Fin q) => 0 < q
  | SNum PInf => True
  | SInt z => (0 < z)%Z
  | _ => False
  end.

(** a float, not an int *)
Definition float_of (v : scalar) : option float64 :=
  match v with
  | SNum x => Some x
  | SNone | SStr _ | SInt _ => None
  end.

(** a list whose items are all floats *)
Fixpoint floats (l : list scalar) : option (list float64) :=
  match l with
  | [] => Some []
  | v :: rest =>
      match float_of v, floats rest with
      | Some x, Some xs => Some (x :: xs)
      | _, _ => None
      end
  end.

(** the values of a flat sequence of floats, a list or an array *)
Definition numeric_items (obj : pyobj) : option (list float64) :=
  match obj with
  | PyList l => floats l
  | NdArray a => Some a
  | Scalar _ | NdIntArray _ => None
  end.

(** a number an array holds: a float, or an int within the 64-bit range *)
Definition number64 (v : scalar) : Prop :=
  match v with
  | SNum _ => True
  | SInt z => in_int64 z = true
  | SNone | SStr _ => False
  end.

(** the items of a sequence, as Python objects *)
Definition entries (obj : pyobj) : option (list scalar) :=
  match obj with
  | PyList l => Some l
  | NdArray a => Some (map SNum a)
  | NdIntArray a => Some (map SInt a)
  | Scalar _ => None
  end.

(** the selector given fits a vector of [n] parameters *)
Definition selector_fits (mask : list bool) (n : nat) : Prop :=
  mask = [] \/ List.length mask = n.

(** the selector a [fit] call works with: the one given, or the first entry
    alone *)
Definition effective_index (n : nat) (fit_index : option (list bool))
  : list bool :=
  match fit_index with
  | Some idx => idx
  | None => match n with O => [] | S n' => true :: repeat false n' end
  end.


(** the trial vectors an optimiser run hands to the objective, in order,
    the last one being the evaluation that raised, if one did *)
Fixpoint trials (f : list float64 -> M prediction) (o : optimizer)
  (self : Model) : list (list float64) :=
  match o with
  | Evaluate par_fit k =>
      par_fit :: match f par_fit self with
                 | (Returns y, self') => trials f (k y) self'
                 | (Raises _, _) => []
                 end
  | Converged _ _ | GiveUp _ => []
  end.

(** the trial vectors of one [fit] call; none when the call does not get as
    far as the optimiser *)
Definition fit_trials
  (odeint : deriv -> pyobj -> list float64 -> pyobj -> float64 -> float64 ->
            outcome matrix)
  (curve_fit : list float64 -> list float64 -> list float64 ->
               list float64 * list float64 -> optimizer)
  (K : ModelKind) (t_obs n_i_obs : list float64) (population : float64)
  (fit_index : option (list bool)) (self : Model) : list (list float64) :=
  match np_array (p self) with
  | Returns arr =>
      match fit_index, array_floats arr with
      | None, [] => []
      | _, _ =>
          let mask :=
            effective_index (List.length (array_floats arr)) fit_index in
          match getitem_mask arr mask with
          | Returns fit_params0 =>
              trials (function_handle odeint K mask population t_obs)
                (curve_fit t_obs n_i_obs (array_floats fit_params0)
                   (fit_bounds (List.length (array_floats fit_params0))))
                self
          | Raises _ => []
          end
      end
  | Raises _ => []
  end.

(** a hook that leaves the parameter vector alone *)
Definition keeps_p (hook : M unit) : Prop :=
  forall self, p (snd (hook self)) = p self.

(** ** A concrete variant and concrete scipy stand-ins, for the examples *)

Definition ratio (n d : positive) : float64 := Fin (Z.pos n # d).

(** the parameters as a model function reads them: numbers, ints as good
    as floats *)
Definition param_values (obj : pyobj) : option (list float64) :=
  match obj with
  | Scalar _ => None
  | PyList l => numbers l
  | NdArray a => Some a
  | NdIntArray a => Some (map F64.of_Z a)
  end.

(** susceptible and infected fractions: [S' = -alpha S I],
    [I' = alpha S I - beta I] *)
Definition sir_deriv : deriv :=
  fun y _ p_ =>
    match y, param_values p_ with
    | [s; i], Some (alpha :: beta :: _) =>
        let flow := F64.mul alpha (F64.mul s i) in
        [F64.mul (Fin (-1)) flow; np_sub flow (F64.mul beta i)]
    | _, _ => map (fun _ => NaN) y
    end.

(** a variant with two parameters and two compartments *)
Definition TwoCompartment : ModelKind :=
  {| NUM_PARAMS := 2; NUM_IC := 2; _model := Some sir_deriv;
     _update_ic := ret tt |}.

(** its instances observe column 2, the infected compartment *)
Definition init_two : Model :=
  {| sol := None; p := PyNone; pop := SNone; w0 := PyNone;
     pcov := None; fit_input := Some 2%Z |}.

Fixpoint zip_add (xs ys : list float64) : list float64 :=
  match xs, ys with
  | x :: xs', y :: ys' => F64.add x y :: zip_add xs' ys'
  | _, _ => []
  end.

(** explicit Euler steps from one requested time to the next *)
Fixpoint euler_from (func : deriv) (p_ : pyobj) (y : list float64)
  (t0 : float64) (ts : list float64) : matrix :=
  match ts with
  | [] => []
  | t1 :: ts' =>
      let h := np_sub t1 t0 in
      let y1 := zip_add y (map (fun d => F64.mul h d) (func y t0 p_)) in
      y1 :: euler_from func p_ y1 t1 ts'
  end.

(** an integrator to stand for [odeint]: one row per requested time *)
Definition euler_odeint (func : deriv) (y0 : pyobj) (t : list float64)
  (p_ : pyobj) (atol rtol : float64) : outcome matrix :=
  match y0, t with
  | NdArray ys, t0 :: ts => Returns (ys :: euler_from func p_ ys t0 ts)
  | NdArray _, [] => Returns []
  | _, _ => Raises TypeError
  end.

(** an optimiser to stand for [curve_fit]: it tries the initial guess, then
    the guess moved by a tenth, and settles in between *)
Definition scripted_fit (xdata ydata p0 : list float64)
  (bounds : list float64 * list float64) : optimizer :=
  Evaluate p0 (fun _ =>
  Evaluate (map (fun x => F64.add x (ratio 1 10)) p0) (fun _ =>
  Converged (map (fun x => F64.add x (ratio 1 20)) p0) [[ratio 1 100]])).

(** the same trials, after which the optimiser gives up *)
Definition scripted_failure (xdata ydata p0 : list float64)
  (bounds : list float64 * list float64) : optimizer :=
  Evaluate p0 (fun _ =>
  Evaluate (map (fun x => F64.add x (ratio 1 10)) p0) (fun _ =>
  GiveUp RuntimeError)).

(** an optimiser that, for an empty initial guess, evaluates the objective
    once and returns the empty optimum *)
Definition lenient_fit (xdata ydata p0 : list float64)
  (bounds : list float64 * list float64) : optimizer :=
  Evaluate p0 (fun _ => Converged p0 []).

(** sample inputs *)
Definition base_params : pyobj :=
  PyList [SNum (ratio 95 100); SNum (ratio 38 100); SNum (ratio 1 10); SNum (ratio 2 10)].
Definition base_conds : pyobj :=
  NdArray [Fin 990; Fin 10; Fin 0; Fin 0].
Definition two_params : pyobj := PyList [SNum (ratio 5 10); SNum (ratio 2 10)].
Definition two_conds : pyobj := NdArray [Fin 990; Fin 10].

(** an instance of the base class with parameters already stored *)
Definition base_ready : Model := snd (set_params BaseModel base_params base_conds init).

(** an instance of the two-compartment variant, parameters stored *)
Definition two_ready : Model := snd (set_params TwoCompartment two_params two_conds init_two).

(** parameters with a zero entry *)
Definition zero_entry_params : pyobj :=
  PyList [SNum (ratio 3 10); SNum (ratio 1 10); SNum (Fin 0); SNum (Fin 0)].

(** three parameters, the last one zero *)
Definition short_zero_params : pyobj :=
  PyList [SNum (ratio 3 10); SNum (ratio 1 10); SNum (Fin 0)].

(** a parameter list holding a string *)
Definition text_entry_params : pyobj :=
  PyList [SNum (ratio 3 10); SStr "0.1"; SNum (ratio 1 10); SNum (ratio 2 10)].


(** observations for the fitting examples *)
Definition obs_days : list float64 := [Fin 0; Fin 1; Fin 2].
Definition obs_infected : list float64 := [Fin 10; Fin 12; Fin 15].

(** the normalized states the stand-in integrator gives for [two_ready]
    over three times up to day 10 *)
Definition two_states : matrix :=
  Eval vm_compute in
    match euler_odeint sir_deriv (w0 two_ready)
            (linspace (Fin 0) (Fin 10) 3) (p two_ready) ABSERR RELERR with
    | Returns y => y
    | Raises _ => []
    end.

(** ** [Model.export] *)

(** the call [np.savetxt(f, self.sol, **kwargs)] that [export] ends with;
    a keyword left out of [kwargs] is [None] here *)
Record savetxt_call : Type := mkSavetxt {
  st_data : matrix;
  st_delimiter : string;
  st_comments : option string;
  st_header : option string
}.

(** [",".join(row)] *)
Definition join_commas (row : list string) : string := String.concat "," row.

(** [CSV_ROW] is the class attribute of the variant; the file argument is
    handed to [np.savetxt] as it comes *)
Definition export (CSV_ROW : list string) (suppress_header : bool)
  (delimiter : string) : M savetxt_call :=
  sol_ <- get sol ;;
  match sol_ with
  | None => raise Exception_
  | Some data =>
      if suppress_header then
        ret {| st_data := data; st_delimiter := delimiter;
               st_comments := None; st_header := None |}
      else
        ret {| st_data := data; st_delimiter := delimiter;
               st_comments := Some EmptyString;
               st_header := Some (join_commas CSV_ROW) |}
  end.

(** ** Further notions for the properties *)

(** two instance states that agree on everything but the parameters *)
Definition same_but_p (s s' : Model) : Prop :=
  sol s' = sol s /\ pop s' = pop s /\ w0 s' = w0 s /\
  pcov s' = pcov s /\ fit_input s' = fit_input s.

(** a hook that does what the base class's [_update_ic] does: nothing *)
Definition does_nothing (hook : M unit) : Prop :=
  forall self, hook self = (Returns tt, self).

(** more sample inputs *)

(** initial conditions with an entry that is not a number *)
Definition text_conds : pyobj :=
  PyList [SNum (Fin 990); SStr "ten"; SNum (Fin 0); SNum (Fin 0)].

(** a variant with a single parameter *)
Definition OneParameter : ModelKind :=
  {| NUM_PARAMS := 1; NUM_IC := 2; _model := Some sir_deriv;
     _update_ic := ret tt |}.

Definition one_param : pyobj := PyList [SNum (ratio 5 10)].

(** column names of the two-compartment variant *)
Definition two_csv_row : list string := ["Days"; "S"; "I"]%string.

(** a variant whose compartments do not move *)
Definition rest_deriv : deriv := fun y _ _ => map (fun _ => F64.zero) y.

Definition AtRest : ModelKind :=
  {| NUM_PARAMS := 2; NUM_IC := 2; _model := Some rest_deriv;
     _update_ic := ret tt |}.

Definition rest_ready : Model :=
  snd (set_params AtRest two_params two_conds init_two).

(** the fractions the stand-in integrator gives for [rest_ready] over three
    times up to day 10 *)
Definition rest_states : list (list Q) :=
  Eval vm_compute in
    match euler_odeint rest_deriv (w0 rest_ready)
            (linspace (Fin 0) (Fin 10) 3) (p rest_ready) ABSERR RELERR with
    | Returns y =>
        map (map (fun v => match v with Fin x => x | _ => 0 end)) y
    | Raises _ => []
    end.

(** ** Integer parameters, for the examples *)



(** four parameters given as Python ints, the first beyond every float *)
Definition huge_params : pyobj :=
  PyList [SInt (10 ^ 400); SInt 1; SInt 1; SInt 1].



(** ** Notions for the quotient of [r0] *)

(** the value of a Python number, an int taken exactly *)
Definition value_of (v : scalar) : option float64 :=
  match v with
  | SNum x => Some x
  | SInt z => Some (Fin (inject_Z z))
  | SNone | SStr _ => None
  end.

(** the items are Python numbers, held by a list, not numpy scalars *)
Definition held_by_list (obj : pyobj) : bool :=
  match obj with
  | PyList _ => true
  | Scalar _ | NdArray _ | NdIntArray _ => false
  end.

(** Python cannot give the quotient as a float: two ints whose quotient
    reaches [float_bound], or an int beside a float that reaches it
    itself *)
Definition quotient_overflows (x y : scalar) : bool :=
  match x, y with
  | SInt m, SInt n => Qle_bool float_bound (Qabs (inject_Z m / inject_Z n))
  | SInt m, _ => Qle_bool float_bound (Qabs (inject_Z m))
  | _, SInt n => Qle_bool float_bound (Qabs (inject_Z n))
  | _, _ => false
  end.

(** * Properties *)

(** ** Arithmetic of the idealised floats *)

Lemma gtb_zero_positive x :
  py_gt0 x = Returns true <-> strictly_positive x.
Proof.
  destruct x as [|[q| | |]|s|z]; simpl; split; try discriminate;
    try contradiction; try reflexivity; try (intros _; exact I).
  - destruct (q ?= 0) eqn:E; try discriminate.
    intros _. apply Qgt_alt in E. exact E.
  - intros H. apply Qgt_alt in H. now rewrite H.
  - intros H. inversion H as [Hz]. now apply Z.ltb_lt.
  - intros H. apply Z.ltb_lt in H. now rewrite H.
Qed.

Lemma sum_fin_acc qs a :
  fold_left F64.add (map Fin qs) (Fin a) = Fin (fold_left Qplus qs a).
Proof.
  revert a. induction qs as [|q qs IH]; intros a; simpl; [reflexivity|].
  apply IH.
Qed.

Lemma sum_fin qs : F64.sum (map Fin qs) = Fin (fold_left Qplus qs 0).
Proof. apply sum_fin_acc. Qed.

Lemma fold_plus_acc qs a : fold_left Qplus qs a == a + fold_left Qplus qs 0.
Proof.
  revert a. induction qs as [|q qs IH]; intros a; simpl.
  - lra.
  - rewrite (IH (a + q)), (IH (0 + q)). lra.
Qed.





Lemma div_fin_positive q c :
  0 < c -> F64.div (Fin q) (Fin c) = Fin (q / c).
Proof.
  intros Hc. simpl. apply Qgt_alt in Hc. now rewrite Hc.
Qed.

Lemma numbers_map_snum xs : numbers (map SNum xs) = Some xs.
Proof.
  induction xs as [|x xs IH]; simpl; [reflexivity|]. now rewrite IH.
Qed.

(** ** The validation loop of [set_params] *)

Lemma assert_positive_state x self : snd (assert_positive x self) = self.
Proof.
  unfold assert_positive, bind, lift, py_assert.
  destruct (py_gt0 x) as [[|]|e]; reflexivity.
Qed.

Lemma assert_positive_ok x self :
  strictly_positive x -> assert_positive x self = (Returns tt, self).
Proof.
  intros H. apply gtb_zero_positive in H.
  unfold assert_positive, bind, lift. now rewrite H.
Qed.

Lemma assert_positive_fails x self :
  py_gt0 x <> Returns true -> exists e, assert_positive x self = (Raises e, self).
Proof.
  intros H. unfold assert_positive, bind, lift, py_assert.
  destruct (py_gt0 x) as [[|]|e]; [congruence| |]; simpl; unfold raise; eauto.
Qed.

Lemma for_each_positive_state items self :
  snd (for_each items assert_positive self) = self.
Proof.
  revert self. induction items as [|x items IH]; intros self; simpl;
    [reflexivity|].
  unfold bind. pose proof (assert_positive_state x self) as Hs.
  destruct (assert_positive x self) as [[[]|e] self']; simpl in Hs; subst.
  - apply IH.
  - reflexivity.
Qed.

Lemma for_each_positive_ok items self :
  Forall strictly_positive items ->
  for_each items assert_positive self = (Returns tt, self).
Proof.
  induction 1 as [|x items Hx _ IH]; simpl; [reflexivity|].
  unfold bind. now rewrite (assert_positive_ok _ _ Hx).
Qed.

Lemma for_each_positive_fails items x self :
  In x items -> py_gt0 x <> Returns true ->
  exists e, for_each items assert_positive self = (Raises e, self).
Proof.
  induction items as [|y items IH]; simpl; [contradiction|].
  intros Hin Hx. unfold bind.
  pose proof (assert_positive_state y self) as Hs.
  destruct (assert_positive y self) as [[[]|e] self'] eqn:E; simpl in Hs; subst.
  - destruct Hin as [->|Hin]; [|now apply IH].
    destruct (assert_positive_fails _ self Hx) as [e He]. congruence.
  - eauto.
Qed.

Lemma for_each_positive_inv items self :
  fst (for_each items assert_positive self) = Returns tt ->
  Forall strictly_positive items.
Proof.
  induction items as [|x items IH]; simpl; [constructor|].
  unfold bind. intros H.
  destruct (py_gt0 x) as [[|]|e] eqn:E.
  - constructor; [now apply gtb_zero_positive|].
    apply IH. rewrite assert_positive_ok in H by now apply gtb_zero_positive.
    exact H.
  - destruct (assert_positive_fails x self) as [e He]; [congruence|].
    rewrite He in H. discriminate.
  - destruct (assert_positive_fails x self) as [e' He]; [congruence|].
    rewrite He in H. discriminate.
Qed.

(** the two ways [set_params] can leave its validation *)
Lemma set_params_invalid K p_ ic self :
  (forall items, py_iter p_ = Returns items ->
     exists e, for_each items assert_positive self = (Raises e, self)) ->
  set_params K p_ ic self = (Raises InvalidParameterError, self).
Proof.
  intros H. unfold set_params, bind at 1, try_except, bind at 1, lift at 1.
  destruct (py_iter p_) as [items|e]; [|reflexivity].
  destruct (H items eq_refl) as [e He]. now rewrite He.
Qed.

Lemma chars_length s : List.length (chars s) = String.length s.
Proof. induction s as [|c s IH]; simpl; congruence. Qed.

Lemma py_len_iter obj items :
  py_iter obj = Returns items -> py_len obj = Returns (List.length items).
Proof.
  destruct obj as [[| |s|]|l|a|a]; simpl; intros H; inversion H; subst.
  - now rewrite chars_length.
  - reflexivity.
  - now rewrite length_map.
  - now rewrite length_map.
Qed.

Lemma numbers_length l xs :
  numbers l = Some xs -> List.length l = List.length xs.
Proof.
  revert xs. induction l as [|[|x|s|z] l IH]; simpl; intros xs H;
    try discriminate.
  - now inversion H.
  - destruct (numbers l) as [ys|]; [|discriminate].
    inversion H; subst. simpl. now rewrite (IH ys).
  - destruct (numbers l) as [ys|]; [|discriminate].
    inversion H; subst. simpl. now rewrite (IH ys).
Qed.

Lemma floats_numbers l a : floats l = Some a -> numbers l = Some a.
Proof.
  revert a. induction l as [|[|x|s|z] l IH]; simpl; intros a H;
    try discriminate; [exact H|].
  destruct (floats l) as [xs|]; [|discriminate].
  now rewrite (IH xs eq_refl).
Qed.

Lemma floats_no_ints x l a : floats (x :: l) = Some a -> ints (x :: l) = None.
Proof.
  destruct x as [|v|s|z]; simpl; intros H; try discriminate; reflexivity.
Qed.

Lemma floats_within l a : floats l = Some a -> existsb beyond_int64 l = false.
Proof.
  revert a. induction l as [|[|x|s|z] l IH]; simpl; intros a H;
    try discriminate; [reflexivity|].
  destruct (floats l) as [xs|]; [|discriminate]. now apply (IH xs).
Qed.


Lemma ints_length l zs : ints l = Some zs -> List.length zs = List.length l.
Proof.
  revert zs. induction l as [|[|x|s|z] l IH]; simpl; intros zs H;
    try discriminate.
  - now inversion H.
  - destruct (ints l) as [ys|]; [|discriminate].
    inversion H; subst. simpl. now rewrite (IH ys).
Qed.




Lemma py_getitem_iter obj items i :
  py_iter obj = Returns items ->
  py_getitem obj i = match nth_error items i with
                     | Some v => Returns v
                     | None => Raises IndexError
                     end.
Proof.
  destruct obj as [[| |s|]|l|a|a]; simpl; intros H; inversion H;
    reflexivity.
Qed.

(** [set_params] once the validation loop has passed *)
Lemma set_params_valid K p_ ic items self :
  py_iter p_ = Returns items -> Forall strictly_positive items ->
  set_params K p_ ic self =
  (n <- lift (py_len p_) ;;
   mismatch <- (if negb (n =? NUM_PARAMS K)%nat then ret true
                else k <- lift (py_len ic) ;;
                     ret (negb (k =? NUM_IC K)%nat)) ;;
   if mismatch : bool then raise InvalidNumberOfParametersError
   else
     set_p p_ ;;;
     s <- lift (np_sum ic) ;;
     set_pop (SNum s) ;;;
     pop_ <- get pop ;;
     w <- lift (np_truediv ic pop_) ;;
     set_w0 w ;;;
     ret Self) self.
Proof.
  intros Hit Hpos. unfold set_params, bind at 1, try_except, bind at 1, lift at 1.
  rewrite Hit, (for_each_positive_ok _ _ Hpos). reflexivity.
Qed.

(** what a successful [set_params] went through *)
Lemma set_params_success K p_ ic self r self' :
  set_params K p_ ic self = (Returns r, self') ->
  exists items s w,
    py_iter p_ = Returns items /\ Forall strictly_positive items /\
    List.length items = NUM_PARAMS K /\ py_len ic = Returns (NUM_IC K) /\
    np_sum ic = Returns s /\ np_truediv ic (SNum s) = Returns w /\
    r = Self /\
    self' = {| sol := sol self; p := p_; pop := SNum s; w0 := w;
               pcov := pcov self; fit_input := fit_input self |}.
Proof.
  intros H.
  destruct (py_iter p_) as [items|e] eqn:Hit.
  2:{ rewrite set_params_invalid in H; [discriminate|].
      intros items Hi. congruence. }
  assert (Hpos : Forall strictly_positive items).
  { apply (for_each_positive_inv items self).
    destruct (for_each items assert_positive self) as [[[]|e] s0] eqn:E;
      [reflexivity|].
    rewrite set_params_invalid in H; [discriminate|].
    intros items' Hi. rewrite Hit in Hi. inversion Hi; subst.
    pose proof (for_each_positive_state items' self) as Hs.
    rewrite E in Hs. simpl in Hs. subst. eauto. }
  rewrite (set_params_valid K _ ic _ self Hit Hpos) in H.
  rewrite (py_len_iter _ _ Hit) in H. unfold bind at 1, lift at 1 in H.
  unfold bind at 1 in H.
  destruct (List.length items =? NUM_PARAMS K)%nat eqn:En; simpl in H;
    [|discriminate].
  apply Nat.eqb_eq in En.
  unfold bind at 1, lift at 1 in H.
  destruct (py_len ic) as [k|e] eqn:Hk; [|discriminate].
  simpl in H. destruct (k =? NUM_IC K)%nat eqn:Ek; simpl in H; [|discriminate].
  apply Nat.eqb_eq in Ek. subst k.
  unfold bind at 1, set_p at 1, bind at 1, lift at 1 in H.
  destruct (np_sum ic) as [s|e] eqn:Hs; [|discriminate].
  unfold bind at 1, set_pop at 1, bind at 1, get at 1 in H.
  cbv beta iota in H. cbn [pop] in H. unfold bind at 1, lift at 1 in H.
  destruct (np_truediv ic (SNum s)) as [w|e] eqn:Hw; [|discriminate].
  unfold bind, set_w0, ret in H. simpl in H.
  inversion H; subst. exists items, s, w. repeat split; auto.
Qed.

(** ** Claims about [set_params] and [r0] *)

(** C1: a parameter sequence with an entry that is not strictly positive
    makes [set_params] raise InvalidParameterError, and the instance is left
    exactly as it was: parameters, population, normalized initial
    conditions, solution and covariance. *)
Theorem set_params_rejects_nonpositive K p_ ic items x self :
  py_iter p_ = Returns items -> In x items -> ~ strictly_positive x ->
  set_params K p_ ic self = (Raises InvalidParameterError, self).
Proof.
  intros Hit Hin Hx. apply set_params_invalid.
  intros items' Hi. rewrite Hit in Hi. inversion Hi; subst.
  apply (for_each_positive_fails _ x); [exact Hin|].
  intros Hgt. apply Hx. now apply gtb_zero_positive.
Qed.

(** C10: when iterating over [p] raises, or comparing one of its items with
    zero raises, whatever the exception, [set_params] raises
    InvalidParameterError in its place and leaves the instance as it was. *)
Theorem set_params_masks_exceptions K p_ ic self :
  (exists e, py_iter p_ = Raises e) \/
  (exists items x e,
     py_iter p_ = Returns items /\ In x items /\ py_gt0 x = Raises e) ->
  set_params K p_ ic self = (Raises InvalidParameterError, self).
Proof.
  intros [[e He]|(items & x & e & Hit & Hin & Hx)]; apply set_params_invalid.
  - intros items Hi. congruence.
  - intros items' Hi. rewrite Hit in Hi. inversion Hi; subst.
    apply (for_each_positive_fails _ x); [exact Hin|congruence].
Qed.


(** C4, as the code has it: the count check comes after the positivity
    check, so it is reached by strictly positive parameters only; for those,
    a parameter count or an initial-condition count that differs from the
    declared one raises InvalidNumberOfParametersError and leaves the
    instance as it was. *)
Theorem set_params_wrong_count K p_ ic items k self :
  py_iter p_ = Returns items -> Forall strictly_positive items ->
  py_len ic = Returns k ->
  List.length items <> NUM_PARAMS K \/ k <> NUM_IC K ->
  set_params K p_ ic self = (Raises InvalidNumberOfParametersError, self).
Proof.
  intros Hit Hpos Hk Hne.
  rewrite (set_params_valid K _ ic _ self Hit Hpos).
  rewrite (py_len_iter _ _ Hit), Hk.
  unfold bind at 1, lift at 1.
  destruct (List.length items =? NUM_PARAMS K)%nat eqn:En; simpl;
    [|reflexivity].
  apply Nat.eqb_eq in En.
  unfold bind at 1, bind at 1, lift at 1, ret at 1.
  destruct (k =? NUM_IC K)%nat eqn:Ek; simpl; [|reflexivity].
  apply Nat.eqb_eq in Ek. lia.
Qed.


(** the quotient of two strictly positive items of a list, as Python gives
    it *)
Lemma py_truediv_positive (numpy : bool) x y a b :
  value_of x = Some a -> value_of y = Some b -> strictly_positive y ->
  py_truediv numpy x y =
  if negb numpy && quotient_overflows x y then Raises OverflowError
  else Returns (F64.div a b).
Proof.
  intros Hx Hy Hpos.
  unfold py_truediv, quotient_overflows, int_too_large, too_large, F64.of_Z.
  assert (Hzero : F64.is_zero b = false).
  { destruct y as [|[w| | |]|s'|n]; simpl in Hy, Hpos; try contradiction;
      inversion Hy; subst; simpl; try reflexivity.
    - apply Qgt_alt in Hpos. now rewrite Hpos.
    - unfold Qcompare. simpl. rewrite Z.mul_1_r.
      destruct n; simpl in *; try reflexivity; lia. }
  destruct x as [|u|s|m]; destruct y as [|v|s'|n];
    cbn [value_of as_number] in *; unfold F64.of_Z in *; try discriminate;
    inversion Hx; inversion Hy; subst;
    destruct numpy; cbn [negb andb orb]; try reflexivity.
  - now rewrite Hzero.
  - destruct (Qle_bool float_bound (Qabs (inject_Z n))); [reflexivity|].
    now rewrite Hzero.
  - destruct (Qle_bool float_bound (Qabs (inject_Z m))); [reflexivity|].
    cbn [orb]. now rewrite Hzero.
  - assert (Hn0 : (n =? 0)%Z = false)
      by (simpl in Hpos; apply Z.eqb_neq; lia).
    rewrite Hn0.
    destruct (Qle_bool float_bound (Qabs (inject_Z m / inject_Z n)));
      [reflexivity|].
    f_equal. symmetry. apply div_fin_positive.
    change 0 with (inject_Z 0). rewrite <- Zlt_Qlt. exact Hpos.
Qed.

Lemma positive_has_value x :
  strictly_positive x -> exists a, value_of x = Some a.
Proof.
  destruct x as [|v|s|z]; simpl; try contradiction; eauto.
Qed.

Lemma entries_iter obj l :
  entries obj = Some l -> py_iter obj = Returns l.
Proof.
  destruct obj as [v|l'|a|a]; simpl; intros H; inversion H; reflexivity.
Qed.

Lemma iter_entries obj x l :
  py_iter obj = Returns (x :: l) -> strictly_positive x ->
  entries obj = Some (x :: l).
Proof.
  destruct obj as [[| |s|]|l'|a|a]; simpl; intros H Hx; inversion H;
    try reflexivity.
  destruct s as [|c s]; simpl in *; [discriminate|].
  inversion H; subst. contradiction.
Qed.

Lemma held_by_list_array obj l :
  entries obj = Some l -> is_array obj = negb (held_by_list obj).
Proof. destruct obj; simpl; intros H; try discriminate; reflexivity. Qed.

(** [r0] on a stored sequence of two items or more, the second a strictly
    positive number *)
Lemma r0_stored self x y rest a b :
  entries (p self) = Some (x :: y :: rest) ->
  value_of x = Some a -> value_of y = Some b -> strictly_positive y ->
  r0 self =
  (if held_by_list (p self) && quotient_overflows x y
   then Raises OverflowError else Returns (Value (F64.div a b)), self).
Proof.
  intros He Hx Hy Hpos. unfold r0, bind, get, lift, ret.
  pose proof (entries_iter _ _ He) as Hit.
  rewrite (py_getitem_iter _ _ 0 Hit), (py_getitem_iter _ _ 1 Hit). simpl.
  rewrite (py_truediv_positive (is_array (p self)) x y a b Hx Hy Hpos).
  rewrite (held_by_list_array _ _ He), negb_involutive.
  destruct (held_by_list (p self) && quotient_overflows x y); reflexivity.
Qed.

(** C9, as the code has it: after a successful [set_params], on a variant
    with at least two parameters, [r0] is Python's quotient of the first two
    stored parameters.  It returns the first divided by the second (the
    exact quotient), except that for parameters held by a list with a Python
    int among the two it raises OverflowError when that int, or the
    quotient of two ints, is too large for a float. *)
Theorem r0_after_set_params K p_ ic self r self' :
  (2 <= NUM_PARAMS K)%nat ->
  set_params K p_ ic self = (Returns r, self') ->
  exists x y rest a b,
    p self' = p_ /\
    entries p_ = Some (x :: y :: rest) /\
    value_of x = Some a /\ value_of y = Some b /\
    r0 self' =
    (if held_by_list p_ && quotient_overflows x y
     then Raises OverflowError else Returns (Value (F64.div a b)), self').
Proof.
  intros Hn H.
  destruct (set_params_success _ _ _ _ _ _ H)
    as (items & s & w & Hit & Hpos & Hlen & _ & _ & _ & _ & ->).
  destruct items as [|x [|y rest]]; simpl in Hlen; try lia.
  inversion Hpos as [|? ? Hx Hrest]; subst.
  inversion Hrest as [|? ? Hy _]; subst.
  destruct (positive_has_value x Hx) as [a Ha].
  destruct (positive_has_value y Hy) as [b Hb].
  pose proof (iter_entries _ _ _ Hit Hx) as He.
  exists x, y, rest, a, b. cbn [p].
  split; [reflexivity|]. split; [exact He|]. split; [exact Ha|].
  split; [exact Hb|].
  exact (r0_stored
           {| sol := sol self; p := p_; pop := SNum s; w0 := w;
              pcov := pcov self; fit_input := fit_input self |}
           x y rest a b He Ha Hb Hy).
Qed.

(** ** [linspace], [insert_column], [scale_tail] *)

Lemma linspace_length a b n : List.length (linspace a b n) = n.
Proof.
  destruct n as [|[|n]]; simpl; try reflexivity.
  rewrite length_app, length_map, length_seq. simpl. lia.
Qed.

Lemma nth_error_snoc {A} (l : list A) (x : A) :
  nth_error (l ++ [x]) (List.length l) = Some x.
Proof. induction l as [|y l IH]; simpl; [reflexivity|exact IH]. Qed.

Lemma linspace_last a b n :
  (2 <= n)%nat -> nth_error (linspace a b n) (n - 1) = Some b.
Proof.
  intros Hn. destruct n as [|[|n]]; try lia.
  unfold linspace.
  set (f := fun i => F64.add (F64.mul (F64.of_nat i)
                (F64.div (np_sub b a) (F64.of_nat (S n)))) a).
  replace (S (S n) - 1)%nat with (List.length (map f (seq 0 (S n))))
    by (rewrite length_map, length_seq; lia).
  apply nth_error_snoc.
Qed.

Lemma div_by_count delta d :
  (0 < d)%nat ->
  F64.div (Fin delta) (F64.of_nat d) = Fin (delta / inject_Z (Z.of_nat d)).
Proof.
  intros Hd. unfold F64.of_nat. apply div_fin_positive.
  change 0 with (inject_Z 0). rewrite <- Zlt_Qlt. lia.
Qed.

(** sample [i] of [num] samples over [0, T] sits at [i * T / (num - 1)] *)
Lemma linspace_even T n i :
  (i < n)%nat ->
  exists t,
    nth_error (linspace (Fin 0) (Fin T) n) i = Some (Fin t) /\
    t * inject_Z (Z.of_nat (n - 1)) == inject_Z (Z.of_nat i) * T.
Proof.
  intros Hi. destruct n as [|[|n]]; try lia.
  - assert (i = 0)%nat by lia. subst i. simpl.
    eexists. split; [reflexivity|]. simpl. change (inject_Z 0) with 0. ring.
  - unfold linspace.
    remember (S n) as d eqn:Ed.
    set (f := fun i => F64.add (F64.mul (F64.of_nat i)
                (F64.div (np_sub (Fin T) (Fin 0)) (F64.of_nat d))) (Fin 0)).
    replace (S d - 1)%nat with d by lia.
    assert (Hd : 0 < inject_Z (Z.of_nat d)).
    { change 0 with (inject_Z 0). rewrite <- Zlt_Qlt. lia. }
    destruct (Nat.eq_dec i d) as [->|Hne].
    + exists T. split; [|lra].
      replace d with (List.length (map f (seq 0 d))) at 2
        by (rewrite length_map, length_seq; reflexivity).
      apply nth_error_snoc.
    + assert (Hlt : (i < d)%nat) by lia.
      rewrite nth_error_app1 by (rewrite length_map, length_seq; exact Hlt).
      rewrite nth_error_map, nth_error_seq.
      destruct (Nat.ltb_spec i d) as [_|]; [|lia]. simpl.
      unfold f, np_sub. cbn [F64.mul F64.add].
      rewrite div_by_count by lia. unfold F64.of_nat. cbn [F64.mul F64.add].
      eexists. split; [reflexivity|].
      generalize dependent (inject_Z (Z.of_nat d)). intros D HD.
      field. lra.
Qed.

Lemma insert_column_spec t y :
  List.length y = List.length t ->
  exists rows,
    insert_column t y = Returns rows /\ List.length rows = List.length t /\
    column 0 rows = Returns t /\ map (@tl float64) rows = y.
Proof.
  revert y. induction t as [|x t IH]; intros [|r y] Hlen; simpl in Hlen;
    try discriminate.
  - exists []. repeat split.
  - destruct (IH y) as (rows & Hi & Hl & Hc & Ht); [lia|].
    exists ((x :: r) :: rows). simpl. rewrite Hi, Hl, Hc, Ht. repeat split.
Qed.

Lemma scale_tail_spec c rows t :
  column 0 rows = Returns t ->
  column 0 (scale_tail c rows) = Returns t /\
  map (@tl float64) (scale_tail c rows)
  = map (map (fun y => F64.mul y c)) (map (@tl float64) rows).
Proof.
  revert t. induction rows as [|r rows IH]; intros t H; simpl in *.
  - split; [exact H|reflexivity].
  - destruct r as [|x ys]; simpl in H; [discriminate|].
    destruct (column 0 rows) as [vs|e] eqn:E; [|discriminate].
    inversion H; subst. destruct (IH vs eq_refl) as [Hc Ht].
    fold (scale_tail c rows). rewrite Hc, Ht. split; reflexivity.
Qed.

(** ** Claim about [solve] *)

(** C3: on an instance whose population is set, with a variant that has a
    derivative function, and when [odeint] returns one row per requested
    time, [solve] returns [self] and stores a solution (replacing any
    earlier one) of [numpoints] rows; its first column is
    [linspace 0 tf_days numpoints]: sample [i] is [i * tf_days /
    (numpoints - 1)], and from two points on the last sample is [tf_days]
    itself; the other columns are the integrated states multiplied by the
    stored population.  Nothing else of the instance changes. *)
Theorem solve_stores_solution
  (odeint : deriv -> pyobj -> list float64 -> pyobj -> float64 -> float64 ->
            outcome matrix)
  K tf_days numpoints self func P y :
  _model K = Some func ->
  pop self = SNum P ->
  odeint func (w0 self) (linspace (Fin 0) tf_days numpoints) (p self)
    ABSERR RELERR = Returns y ->
  List.length y = numpoints ->
  exists rows,
    solve odeint K tf_days numpoints self =
      (Returns Self,
       {| sol := Some rows; p := p self; pop := pop self; w0 := w0 self;
          pcov := pcov self; fit_input := fit_input self |}) /\
    List.length rows = numpoints /\
    column 0 rows = Returns (linspace (Fin 0) tf_days numpoints) /\
    map (@tl float64) rows = map (map (fun v => F64.mul v P)) y /\
    ((2 <= numpoints)%nat ->
     nth_error (linspace (Fin 0) tf_days numpoints) (numpoints - 1)
     = Some tf_days) /\
    (forall T i, tf_days = Fin T -> (i < numpoints)%nat ->
       exists t,
         nth_error (linspace (Fin 0) tf_days numpoints) i = Some (Fin t) /\
         t * inject_Z (Z.of_nat (numpoints - 1))
         == inject_Z (Z.of_nat i) * T).
Proof.
  intros Hf HP Hode Hlen.
  set (tspan := linspace (Fin 0) tf_days numpoints) in *.
  destruct (insert_column_spec tspan y) as (rows0 & Hins & Hl & Hc & Ht).
  { unfold tspan. now rewrite linspace_length. }
  destruct (scale_tail_spec P rows0 tspan Hc) as [Hc' Ht'].
  exists (scale_tail P rows0).
  split.
  { unfold solve, bind, get_model, get, lift, call_solver, ret, set_sol.
    rewrite Hf. cbv beta iota. fold tspan. rewrite Hode, Hins, HP.
    reflexivity. }
  split.
  { unfold scale_tail. rewrite length_map, Hl. unfold tspan.
    apply linspace_length. }
  split; [exact Hc'|]. split; [now rewrite Ht', Ht|]. split.
  - apply linspace_last.
  - intros T i -> Hi. now apply linspace_even.
Qed.

(** ** Masked assignment *)

Lemma overwrite_length {A} (a : list A) mask vs :
  List.length (overwrite a mask vs) = List.length a.
Proof.
  revert mask vs. induction a as [|x a IH]; intros [|[|] mask] vs; simpl;
    try reflexivity.
  - destruct vs; simpl; now rewrite IH.
  - now rewrite IH.
Qed.






Lemma broadcast_to_exact {A} (vals : list A) :
  broadcast_to (List.length vals) vals = Returns vals.
Proof. unfold broadcast_to. now rewrite Nat.eqb_refl. Qed.


Lemma index_fits_spec mask n :
  index_fits mask n = true <-> selector_fits mask n.
Proof.
  unfold index_fits, selector_fits. destruct mask as [|b mask].
  - split; auto.
  - rewrite Nat.eqb_eq. split; [auto|]. intros [H|H]; [discriminate|exact H].
Qed.

Lemma select_length {A} (a : list A) mask :
  selector_fits mask (List.length a) ->
  List.length (select a mask) = count_true mask.
Proof.
  intros [->|H]; [destruct a; reflexivity|].
  revert mask H. induction a as [|x a IH]; intros [|b mask] H; simpl in H;
    try discriminate; [reflexivity|].
  unfold count_true in *. simpl. destruct b; simpl; rewrite IH; lia.
Qed.

Lemma select_nothing {A} (a : list A) mask :
  count_true mask = 0%nat -> select a mask = [].
Proof.
  revert mask. induction a as [|x a IH]; intros [|b mask] H; try reflexivity.
  unfold count_true in *. destruct b; simpl in H; [discriminate|].
  simpl. now apply IH.
Qed.

(** ** [np.array] on the stored parameters *)

(** numpy reads a vector of floats as the float array of its values *)
Lemma numeric_items_array obj a :
  numeric_items obj = Some a -> np_array obj = Returns (NdArray a).
Proof.
  destruct obj as [v|l|b|b]; cbn [numeric_items np_array]; intros H;
    try discriminate.
  - rewrite (floats_within _ _ H).
    destruct l as [|x l]; [now inversion H|].
    rewrite (floats_no_ints _ _ _ H). now rewrite (floats_numbers _ _ H).
  - now inversion H.
Qed.

Lemma numeric_items_stored a : numeric_items (NdArray a) = Some a.
Proof. reflexivity. Qed.

Lemma np_array_len obj arr :
  np_array obj = Returns arr ->
  py_len obj = Returns (List.length (array_floats arr)).
Proof.
  destruct obj as [v|l|b|b]; cbn [np_array py_len]; intros H;
    try discriminate.
  - destruct (existsb beyond_int64 l); [discriminate|].
    destruct l as [|x l]; [now inversion H|].
    destruct (ints (x :: l)) as [zs|] eqn:Ei.
    + inversion H; subst. cbn [array_floats].
      now rewrite length_map, (ints_length _ _ Ei).
    + destruct (numbers (x :: l)) as [xs|] eqn:En; [|discriminate].
      inversion H; subst. cbn [array_floats].
      now rewrite (numbers_length _ _ En).
  - now inversion H.
  - inversion H. cbn [array_floats]. now rewrite length_map.
Qed.

(** what [np.array] returns is an array, which [np.array] returns as it is *)
Lemma np_array_array obj arr :
  np_array obj = Returns arr ->
  (exists a, arr = NdArray a) \/ (exists a, arr = NdIntArray a).
Proof.
  destruct obj as [v|l|b|b]; cbn [np_array]; intros H; try discriminate.
  - destruct (existsb beyond_int64 l); [discriminate|].
    destruct l as [|x l]; [inversion H; eauto|].
    destruct (ints (x :: l)) as [zs|].
    + inversion H; eauto.
    + destruct (numbers (x :: l)); inversion H; eauto.
  - inversion H; eauto.
  - inversion H; eauto.
Qed.

Lemma number64_numbers l :
  Forall number64 l ->
  existsb beyond_int64 l = false /\ exists xs, numbers l = Some xs.
Proof.
  induction 1 as [|x l Hx _ [IH1 [xs IH2]]]; simpl; [eauto|].
  destruct x as [|v|s|z]; simpl in Hx; try contradiction; simpl;
    rewrite IH2; [eauto|].
  rewrite Hx. simpl. eauto.
Qed.

(** numpy reads a sequence of such numbers as an array of the same length *)
Lemma entries_array obj l :
  entries obj = Some l -> Forall number64 l ->
  exists arr, np_array obj = Returns arr /\
              List.length (array_floats arr) = List.length l.
Proof.
  destruct obj as [v|l'|a|a]; cbn [entries np_array]; intros H Hall;
    inversion H; subst.
  - destruct (number64_numbers _ Hall) as [Hb [xs Hxs]]. rewrite Hb.
    destruct l as [|x l].
    + simpl in Hxs. inversion Hxs. simpl. eauto.
    + destruct (ints (x :: l)) as [zs|] eqn:Ei.
      * exists (NdIntArray zs). split; [reflexivity|]. cbn [array_floats].
        now rewrite length_map, (ints_length _ _ Ei).
      * rewrite Hxs. exists (NdArray xs). split; [reflexivity|].
        cbn [array_floats]. now rewrite (numbers_length _ _ Hxs).
  - exists (NdArray a). split; [reflexivity|]. cbn [array_floats].
    now rewrite length_map.
  - exists (NdIntArray a). split; [reflexivity|]. cbn [array_floats].
    now rewrite !length_map.
Qed.

(** an assignment through a selector keeps the kind of array and its
    length *)
Lemma setitem_mask_array obj arr mask vals arr' :
  np_array obj = Returns arr ->
  setitem_mask arr mask vals = Returns arr' ->
  np_array arr' = Returns arr' /\
  List.length (array_floats arr') = List.length (array_floats arr).
Proof.
  intros Ha Hs.
  destruct (np_array_array _ _ Ha) as [[a ->]|[a ->]]; simpl in Hs;
    unfold mask_assign in Hs;
    destruct (index_fits mask (List.length a)); try discriminate.
  - destruct (broadcast_to (count_true mask) vals); [|discriminate].
    inversion Hs; subst. simpl. now rewrite overwrite_length.
  - destruct (broadcast_to (count_true mask) (map to_int64 vals));
      [|discriminate].
    inversion Hs; subst. simpl. now rewrite !length_map, overwrite_length.
Qed.

(** ** The objective and the optimiser run *)

Section FitRun.

Variable odeint :
  deriv -> pyobj -> list float64 -> pyobj -> float64 -> float64 -> outcome matrix.
Variable K : ModelKind.
Variable mask : list bool.
Variable population : float64.
Variable t : list float64.
Hypothesis hook_keeps_p : keeps_p (_update_ic K).

Local Abbreviation f := (function_handle odeint K mask population t).

(** what a trial does to the parameters once its assignment went through *)
Lemma function_handle_stores par self arr params :
  np_array (p self) = Returns arr ->
  setitem_mask arr mask par = Returns params ->
  p (snd (f par self)) = params.
Proof.
  intros Ha Hs. unfold function_handle, bind, get, lift, set_p.
  rewrite Ha, Hs.
  match goal with |- context [_update_ic K ?s] => set (s1 := s) end.
  pose proof (hook_keeps_p s1) as Hk.
  destruct (_update_ic K s1) as [[[]|e] s2]; simpl in Hk; [|simpl; exact Hk].
  unfold get_model.
  destruct (_model K) as [func|]; [|simpl; exact Hk].
  unfold ret.
  destruct (call_solver odeint func (p s2) (w0 s2) t) as [sol_mod|e];
    simpl; exact Hk.
Qed.

(** a trial whose assignment raises leaves the instance as it was *)
Lemma function_handle_rejects par self arr e :
  np_array (p self) = Returns arr ->
  setitem_mask arr mask par = Raises e ->
  f par self = (Raises e, self).
Proof.
  intros Ha Hs. unfold function_handle, bind, get, lift.
  now rewrite Ha, Hs.
Qed.



(** along a run, whatever the kind of the parameters, numpy keeps reading
    them as an array of the same length *)
Lemma run_optimizer_array o self arr :
  np_array (p self) = Returns arr ->
  exists arr',
    np_array (p (snd (run_optimizer f o self))) = Returns arr' /\
    List.length (array_floats arr') = List.length (array_floats arr).
Proof.
  revert self arr. induction o as [par k IH|par_opt cov|e];
    intros self arr Ha; simpl; try (exists arr; split; [assumption|reflexivity]).
  unfold bind.
  destruct (setitem_mask arr mask par) as [params|e] eqn:Hs.
  - pose proof (function_handle_stores par self arr params Ha Hs) as Hp.
    destruct (setitem_mask_array _ _ _ _ _ Ha Hs) as [Ha' Hlen].
    destruct (f par self) as [[y|e] s1]; simpl in Hp; subst.
    + destruct (IH y s1 _ Ha') as (arr' & Harr' & Hl).
      exists arr'. split; [exact Harr'|congruence].
    + simpl. exists (p s1). split; [exact Ha'|exact Hlen].
  - rewrite (function_handle_rejects par self arr e Ha Hs). simpl.
    exists arr. split; [exact Ha|reflexivity].
Qed.



End FitRun.

(** ** [fit] as a whole *)

Section FitCall.

Variable odeint :
  deriv -> pyobj -> list float64 -> pyobj -> float64 -> float64 -> outcome matrix.
Variable curve_fit :
  list float64 -> list float64 -> list float64 ->
  list float64 * list float64 -> optimizer.
Variable K : ModelKind.
Variables t_obs n_i_obs : list float64.
Variable population : float64.

(** [fit] from the selection on, the selector settled *)
Lemma fit_eq_given self arr mask :
  np_array (p self) = Returns arr ->
  fit odeint curve_fit K t_obs n_i_obs population (Some mask) self =
  match getitem_mask arr mask with
  | Raises e => (Raises e, self)
  | Returns sel =>
      match run_optimizer (function_handle odeint K mask population t_obs)
              (curve_fit t_obs n_i_obs (array_floats sel)
                 (fit_bounds (List.length (array_floats sel))))
              self with
      | (Raises e, s1) => (Raises e, s1)
      | (Returns (par_opt, cov), s1) =>
          match setitem_mask (p s1) mask par_opt with
          | Raises e => (Raises e, s1)
          | Returns p' =>
              (Returns Self,
               {| sol := sol s1; p := p'; pop := pop s1; w0 := w0 s1;
                  pcov := Some cov; fit_input := fit_input s1 |})
          end
      end
  end.
Proof.
  intros Ha. unfold fit, bind, get, lift, ret, set_p, set_pcov.
  rewrite Ha.
  destruct (getitem_mask arr mask) as [sel|e]; [|reflexivity].
  destruct (run_optimizer _ _ self) as [[[par_opt cov]|e] s1];
    [|reflexivity].
  destruct (setitem_mask (p s1) mask par_opt); reflexivity.
Qed.

(** [fit] with the default selector, on a parameter vector that numpy reads
    as [arr] *)
Lemma fit_eq_default self arr :
  np_array (p self) = Returns arr ->
  fit odeint curve_fit K t_obs n_i_obs population None self =
  match array_floats arr with
  | [] => (Raises IndexError, self)
  | _ :: rest =>
      fit odeint curve_fit K t_obs n_i_obs population
        (Some (true :: repeat false (List.length rest))) self
  end.
Proof.
  intros Ha. unfold fit at 1. unfold bind, get, lift, ret.
  rewrite (np_array_len _ _ Ha).
  destruct (array_floats arr) as [|x rest]; [reflexivity|].
  cbn [List.length default_index]. rewrite Ha.
  unfold fit, bind, get, lift, ret. rewrite Ha. reflexivity.
Qed.

(** without a parameter vector that numpy reads as an array [fit] raises at
    once *)
Lemma fit_no_vector fit_index self e :
  np_array (p self) = Raises e ->
  exists e', fit odeint curve_fit K t_obs n_i_obs population fit_index self
             = (Raises e', self).
Proof.
  intros Hb. unfold fit, bind, get, lift, ret.
  destruct fit_index as [idx|].
  - rewrite Hb. eauto.
  - destruct (py_len (p self)) as [n|e1]; [|eauto].
    destruct (default_index n) as [m|e2]; [|eauto].
    rewrite Hb. eauto.
Qed.

(** on a vector of floats: the steps of [fit], with the selector it works
    with *)
Lemma fit_eq_floats fit_index self a :
  numeric_items (p self) = Some a ->
  fit odeint curve_fit K t_obs n_i_obs population fit_index self =
  match fit_index, a with
  | None, [] => (Raises IndexError, self)
  | _, _ =>
      let mask := effective_index (List.length a) fit_index in
      match mask_select a mask with
      | Raises e => (Raises e, self)
      | Returns p0 =>
          match run_optimizer (function_handle odeint K mask population t_obs)
                  (curve_fit t_obs n_i_obs p0 (fit_bounds (List.length p0)))
                  self with
          | (Raises e, s1) => (Raises e, s1)
          | (Returns (par_opt, cov), s1) =>
              match setitem_mask (p s1) mask par_opt with
              | Raises e => (Raises e, s1)
              | Returns p' =>
                  (Returns Self,
                   {| sol := sol s1; p := p'; pop := pop s1; w0 := w0 s1;
                      pcov := Some cov; fit_input := fit_input s1 |})
              end
          end
      end
  end.
Proof.
  intros Hb. pose proof (numeric_items_array _ _ Hb) as Ha.
  destruct fit_index as [idx|].
  - rewrite (fit_eq_given self _ idx Ha). cbn [effective_index getitem_mask].
    destruct (mask_select a idx) as [p0|e]; destruct a; reflexivity.
  - rewrite (fit_eq_default self _ Ha). cbn [array_floats].
    destruct a as [|x rest]; [reflexivity|].
    rewrite (fit_eq_given self _ _ Ha).
    cbn [effective_index List.length getitem_mask].
    destruct (mask_select (x :: rest) (true :: repeat false (List.length rest)));
      reflexivity.
Qed.


End FitCall.

(** ** Claims about [fit] *)



(** ** The claims at concrete inputs *)

Lemma set_params_rejects_nonpositive_witness :
  In (SNum (Fin 0)) [SNum (ratio 3 10); SNum (ratio 1 10); SNum (Fin 0); SNum (Fin 0)] /\
  ~ strictly_positive (SNum (Fin 0)) /\
  set_params BaseModel zero_entry_params base_conds base_ready
  = (Raises InvalidParameterError, base_ready).
Proof.
  assert (Hin : In (SNum (Fin 0))
    [SNum (ratio 3 10); SNum (ratio 1 10); SNum (Fin 0); SNum (Fin 0)])
    by (simpl; tauto).
  assert (Hx : ~ strictly_positive (SNum (Fin 0)))
    by (intros H; discriminate H).
  split; [exact Hin|]. split; [exact Hx|].
  exact (set_params_rejects_nonpositive BaseModel zero_entry_params base_conds
           _ (SNum (Fin 0)) base_ready eq_refl Hin Hx).
Defined.

Lemma set_params_masks_exceptions_witness :
  py_iter PyNone = Raises TypeError /\
  set_params BaseModel PyNone base_conds base_ready
  = (Raises InvalidParameterError, base_ready) /\
  py_gt0 (SStr "0.1") = Raises TypeError /\
  set_params BaseModel text_entry_params base_conds base_ready
  = (Raises InvalidParameterError, base_ready).
Proof.
  split; [reflexivity|]. split.
  - apply (set_params_masks_exceptions BaseModel PyNone base_conds base_ready).
    left. exists TypeError. reflexivity.
  - split; [reflexivity|].
    apply (set_params_masks_exceptions BaseModel text_entry_params base_conds
             base_ready).
    right. exists [SNum (ratio 3 10); SStr "0.1"; SNum (ratio 1 10);
                   SNum (ratio 2 10)], (SStr "0.1"), TypeError.
    split; [reflexivity|]. split; [simpl; tauto|reflexivity].
Defined.

Lemma base_params_positive :
  Forall strictly_positive
    [SNum (ratio 95 100); SNum (ratio 38 100); SNum (ratio 1 10);
     SNum (ratio 2 10)].
Proof. repeat (apply Forall_cons; [reflexivity|]). apply Forall_nil. Defined.

Lemma two_params_positive :
  Forall strictly_positive [SNum (ratio 5 10); SNum (ratio 2 10)].
Proof. repeat (apply Forall_cons; [reflexivity|]). apply Forall_nil. Defined.


Lemma set_params_wrong_count_witness :
  py_len two_params = Returns 2%nat /\ 2%nat <> NUM_PARAMS BaseModel /\
  set_params BaseModel two_params base_conds base_ready
  = (Raises InvalidNumberOfParametersError, base_ready).
Proof.
  split; [reflexivity|]. split; [discriminate|].
  apply (set_params_wrong_count BaseModel two_params base_conds
           [SNum (ratio 5 10); SNum (ratio 2 10)] 4 base_ready eq_refl
           two_params_positive eq_refl).
  left. discriminate.
Defined.

(** C4 as stated fails: three parameters where four are declared, one of
    them zero, raise InvalidParameterError, not the count error. *)
Lemma wrong_count_behind_zero_entry :
  py_len short_zero_params = Returns 3%nat /\
  3%nat <> NUM_PARAMS BaseModel /\
  set_params BaseModel short_zero_params base_conds init
  = (Raises InvalidParameterError, init) /\
  fst (set_params BaseModel short_zero_params base_conds init)
  <> Raises InvalidNumberOfParametersError.
Proof.
  split; [reflexivity|]. split; [discriminate|].
  split; [reflexivity|]. vm_compute. discriminate.
Qed.



Lemma r0_after_set_params_witness :
  exists x y rest a b,
    p base_ready = base_params /\
    entries base_params = Some (x :: y :: rest) /\
    value_of x = Some a /\ value_of y = Some b /\
    r0 base_ready =
    (if held_by_list base_params && quotient_overflows x y
     then Raises OverflowError else Returns (Value (F64.div a b)),
     base_ready).
Proof.
  apply (r0_after_set_params BaseModel base_params base_conds init Self
           base_ready).
  - simpl. lia.
  - reflexivity.
Defined.

(** C9 as stated fails: four parameters given as Python ints, the first
    [10 ** 400], are accepted, and [r0] then raises OverflowError instead of
    giving the quotient. *)
Lemma r0_overflows_on_large_int :
  fst (set_params BaseModel huge_params base_conds init) = Returns Self /\
  p (snd (set_params BaseModel huge_params base_conds init)) = huge_params /\
  r0 (snd (set_params BaseModel huge_params base_conds init))
  = (Raises OverflowError,
     snd (set_params BaseModel huge_params base_conds init)) /\
  forall v, fst (r0 (snd (set_params BaseModel huge_params base_conds init)))
            <> Returns (Value v).
Proof.
  split; [reflexivity|]. split; [reflexivity|].
  assert (H : r0 (snd (set_params BaseModel huge_params base_conds init))
              = (Raises OverflowError,
                 snd (set_params BaseModel huge_params base_conds init)))
    by (vm_compute; reflexivity).
  split; [exact H|]. intros v. rewrite H. discriminate.
Qed.

Lemma solve_stores_solution_witness :
  exists rows,
    solve euler_odeint TwoCompartment (Fin 10) 3 two_ready =
      (Returns Self,
       {| sol := Some rows; p := p two_ready; pop := pop two_ready;
          w0 := w0 two_ready; pcov := pcov two_ready;
          fit_input := fit_input two_ready |}) /\
    List.length rows = 3%nat /\
    column 0 rows = Returns (linspace (Fin 0) (Fin 10) 3) /\
    map (@tl float64) rows
    = map (map (fun v => F64.mul v (Fin 1000))) two_states /\
    ((2 <= 3)%nat ->
     nth_error (linspace (Fin 0) (Fin 10) 3) (3 - 1) = Some (Fin 10)) /\
    (forall T i, Fin 10 = Fin T -> (i < 3)%nat ->
       exists t,
         nth_error (linspace (Fin 0) (Fin 10) 3) i = Some (Fin t) /\
         t * inject_Z (Z.of_nat (3 - 1)) == inject_Z (Z.of_nat i) * T).
Proof.
  apply (solve_stores_solution euler_odeint TwoCompartment (Fin 10) 3
           two_ready sir_deriv (Fin 1000) two_states);
    [reflexivity|reflexivity|vm_compute; reflexivity|reflexivity].
Defined.

Lemma two_hook_keeps_p : keeps_p (_update_ic TwoCompartment).
Proof. intros s. reflexivity. Defined.





(** ** A selector that selects nothing *)

(** [fit] has no check of its own on the selector: with nothing selected
    the optimiser is still called, on an empty initial guess, and decides
    the outcome. *)
Lemma fit_empty_selector_defers
  (odeint : deriv -> pyobj -> list float64 -> pyobj -> float64 -> float64 ->
            outcome matrix)
  (curve_fit : list float64 -> list float64 -> list float64 ->
               list float64 * list float64 -> optimizer)
  K t_obs n_i_obs population mask self a :
  numeric_items (p self) = Some a ->
  selector_fits mask (List.length a) ->
  count_true mask = 0%nat ->
  fit odeint curve_fit K t_obs n_i_obs population (Some mask) self =
  match run_optimizer (function_handle odeint K mask population t_obs)
          (curve_fit t_obs n_i_obs [] (fit_bounds 0)) self with
  | (Raises e, s1) => (Raises e, s1)
  | (Returns (par_opt, cov), s1) =>
      match setitem_mask (p s1) mask par_opt with
      | Raises e => (Raises e, s1)
      | Returns p' =>
          (Returns Self,
           {| sol := sol s1; p := p'; pop := pop s1; w0 := w0 s1;
              pcov := Some cov; fit_input := fit_input s1 |})
      end
  end.
Proof.
  intros Hb Hl Hc.
  rewrite (fit_eq_floats odeint curve_fit K t_obs n_i_obs population
             (Some mask) self a Hb).
  cbn [effective_index]. unfold mask_select.
  apply index_fits_spec in Hl. rewrite Hl, (select_nothing a mask Hc).
  destruct a; reflexivity.
Qed.

(** with an optimiser that accepts the empty guess the call completes,
    the parameter values as they were *)
Example fit_empty_selector_lenient :
  fit euler_odeint lenient_fit TwoCompartment obs_days obs_infected
    (Fin 1000) (Some [false; false]) two_ready
  = (Returns Self,
     {| sol := None; p := NdArray [ratio 5 10; ratio 2 10];
        pop := pop two_ready; w0 := w0 two_ready; pcov := Some [];
        fit_input := fit_input two_ready |}).
Proof. vm_compute. reflexivity. Qed.

(** * Further properties of the module *)

(** ** [set_params], all of its paths *)

(** [set_params] past the validation loop, path by path *)
Lemma set_params_paths K p_ ic items self :
  py_iter p_ = Returns items -> Forall strictly_positive items ->
  set_params K p_ ic self =
  if negb (List.length items =? NUM_PARAMS K)%nat
  then (Raises InvalidNumberOfParametersError, self)
  else
    match py_len ic with
    | Raises e => (Raises e, self)
    | Returns k =>
        if negb (k =? NUM_IC K)%nat
        then (Raises InvalidNumberOfParametersError, self)
        else
          match np_sum ic with
          | Raises e =>
              (Raises e,
               {| sol := sol self; p := p_; pop := pop self; w0 := w0 self;
                  pcov := pcov self; fit_input := fit_input self |})
          | Returns s =>
              match np_truediv ic (SNum s) with
              | Raises e =>
                  (Raises e,
                   {| sol := sol self; p := p_; pop := SNum s; w0 := w0 self;
                      pcov := pcov self; fit_input := fit_input self |})
              | Returns w =>
                  (Returns Self,
                   {| sol := sol self; p := p_; pop := SNum s; w0 := w;
                      pcov := pcov self; fit_input := fit_input self |})
              end
          end
    end.
Proof.
  intros Hit Hpos. rewrite (set_params_valid K _ ic _ self Hit Hpos).
  rewrite (py_len_iter _ _ Hit).
  unfold bind, lift, get, ret, raise, set_p, set_pop, set_w0.
  destruct (negb (List.length items =? NUM_PARAMS K)%nat); [reflexivity|].
  destruct (py_len ic) as [k|e]; [|reflexivity].
  destruct (negb (k =? NUM_IC K)%nat); [reflexivity|].
  destruct (np_sum ic) as [s|e]; [|reflexivity].
  cbn [pop]. destruct (np_truediv ic (SNum s)); reflexivity.
Qed.

(** either the validation loop rejects [p], or all its items are strictly
    positive *)
Lemma set_params_validation K p_ ic self :
  set_params K p_ ic self = (Raises InvalidParameterError, self) \/
  exists items, py_iter p_ = Returns items /\ Forall strictly_positive items.
Proof.
  destruct (py_iter p_) as [items|e] eqn:Hit.
  2:{ left. apply set_params_invalid. intros items Hi. congruence. }
  destruct (for_each items assert_positive self) as [[[]|e] s0] eqn:E.
  - right. exists items. split; [reflexivity|].
    apply (for_each_positive_inv items self). now rewrite E.
  - left. apply set_params_invalid. intros items' Hi.
    rewrite Hit in Hi. inversion Hi; subst.
    pose proof (for_each_positive_state items' self) as Hs.
    rewrite E in Hs. simpl in Hs. subst. eauto.
Qed.

(** X1: when the parameters are valid and both counts match but summing the
    initial conditions raises, the exception leaves [set_params] as it is,
    and [self.p] has already been replaced while population and normalized
    initial conditions are the old ones. *)
Theorem set_params_half_done K p_ ic items e self :
  py_iter p_ = Returns items -> Forall strictly_positive items ->
  List.length items = NUM_PARAMS K ->
  py_len ic = Returns (NUM_IC K) ->
  np_sum ic = Raises e ->
  set_params K p_ ic self =
  (Raises e,
   {| sol := sol self; p := p_; pop := pop self; w0 := w0 self;
      pcov := pcov self; fit_input := fit_input self |}).
Proof.
  intros Hit Hpos Hn Hk Hs.
  rewrite (set_params_paths K _ ic _ self Hit Hpos).
  now rewrite Hn, Nat.eqb_refl, Hk, Nat.eqb_refl, Hs.
Qed.

Lemma set_params_half_done_witness :
  np_sum text_conds = Raises TypeError /\
  set_params BaseModel base_params text_conds
    (snd (set_params TwoCompartment two_params two_conds init))
  = (Raises TypeError,
     {| sol := None; p := base_params; pop := SNum (Fin 1000);
        w0 := NdArray [ratio 990 1000; ratio 10 1000];
        pcov := None; fit_input := None |}).
Proof.
  split; [reflexivity|].
  exact (set_params_half_done BaseModel base_params text_conds _ TypeError
           (snd (set_params TwoCompartment two_params two_conds init))
           eq_refl base_params_positive eq_refl eq_refl eq_refl).
Defined.

(** X2: calling [set_params] a second time with the same arguments changes
    nothing: outcome and instance are those of the first call, on every
    path, failing ones included. *)
Theorem set_params_idempotent K p_ ic self :
  set_params K p_ ic (snd (set_params K p_ ic self))
  = set_params K p_ ic self.
Proof.
  destruct (set_params_validation K p_ ic self) as [H|(items & Hit & Hpos)].
  - rewrite H. simpl. exact H.
  - rewrite (set_params_paths K _ ic _ self Hit Hpos).
    destruct (negb (List.length items =? NUM_PARAMS K)%nat) eqn:En.
    { simpl. rewrite (set_params_paths K _ ic _ self Hit Hpos), En.
      reflexivity. }
    destruct (py_len ic) as [k|e] eqn:Hk.
    2:{ simpl. rewrite (set_params_paths K _ ic _ self Hit Hpos), En, Hk.
        reflexivity. }
    destruct (negb (k =? NUM_IC K)%nat) eqn:Ek.
    { simpl. rewrite (set_params_paths K _ ic _ self Hit Hpos), En, Hk, Ek.
      reflexivity. }
    destruct (np_sum ic) as [s|e] eqn:Hs.
    2:{ cbn [snd]. rewrite (set_params_paths K _ ic _ _ Hit Hpos).
        rewrite En, Hk, Ek, Hs. reflexivity. }
    destruct (np_truediv ic (SNum s)) as [w|e] eqn:Hw; cbn [snd];
      rewrite (set_params_paths K _ ic _ _ Hit Hpos);
      rewrite En, Hk, Ek, Hs, Hw; reflexivity.
Qed.

(** X3: whatever its outcome, [set_params] leaves the stored solution, the
    covariance and the observable index as they were: a solution or a
    covariance computed for earlier parameters stays in place. *)
Theorem set_params_keeps_results K p_ ic self :
  sol (snd (set_params K p_ ic self)) = sol self /\
  pcov (snd (set_params K p_ ic self)) = pcov self /\
  fit_input (snd (set_params K p_ ic self)) = fit_input self.
Proof.
  destruct (set_params_validation K p_ ic self) as [H|(items & Hit & Hpos)].
  - rewrite H. repeat split.
  - rewrite (set_params_paths K _ ic _ self Hit Hpos).
    destruct (negb (List.length items =? NUM_PARAMS K)%nat);
      [repeat split|].
    destruct (py_len ic) as [k|e]; [|repeat split].
    destruct (negb (k =? NUM_IC K)%nat); [repeat split|].
    destruct (np_sum ic) as [s|e]; [|repeat split].
    destruct (np_truediv ic (SNum s)); repeat split.
Qed.

(** X4: a later successful [set_params] decides the stored parameters,
    population and normalized initial conditions alone: what an earlier
    call stored does not show in them. *)
Theorem set_params_last_call_wins K K' p1 ic1 p2 ic2 self r s2 :
  set_params K p2 ic2 (snd (set_params K' p1 ic1 self)) = (Returns r, s2) ->
  exists r' s2',
    set_params K p2 ic2 self = (Returns r', s2') /\
    p s2 = p s2' /\ pop s2 = pop s2' /\ w0 s2 = w0 s2'.
Proof.
  intros H.
  destruct (set_params_success _ _ _ _ _ _ H)
    as (items & s & w & Hit & Hpos & Hlen & Hk & Hs & Hw & _ & ->).
  exists Self. eexists. split.
  - rewrite (set_params_paths K _ ic2 _ self Hit Hpos).
    rewrite Hlen, Nat.eqb_refl, Hk, Nat.eqb_refl, Hs, Hw. reflexivity.
  - repeat split.
Qed.

Lemma set_params_last_call_wins_witness :
  exists r' s2',
    set_params BaseModel base_params base_conds init_two
    = (Returns r', s2') /\
    p (snd (set_params BaseModel base_params base_conds two_ready)) = p s2' /\
    pop (snd (set_params BaseModel base_params base_conds two_ready))
    = pop s2' /\
    w0 (snd (set_params BaseModel base_params base_conds two_ready)) = w0 s2'.
Proof.
  apply (set_params_last_call_wins BaseModel TwoCompartment two_params
           two_conds base_params base_conds init_two Self).
  reflexivity.
Defined.

(** ** Normalizing and rescaling *)





(** ** [r0] *)

(** X6: after a successful [set_params] whose first two parameters are
    finite floats [a] and [b], [r0] is, in exact arithmetic (floats read as
    rationals: no rounding, overflow or underflow), the quotient [a / b],
    and it exceeds 1 exactly when the first parameter exceeds the second. *)
Theorem r0_threshold K p_ ic self r self' a b rest :
  set_params K p_ ic self = (Returns r, self') ->
  entries p_ = Some (SNum (Fin a) :: SNum (Fin b) :: rest) ->
  exists v,
    r0 self' = (Returns (Value (Fin v)), self') /\
    v == a / b /\ (1 < v <-> b < a).
Proof.
  intros H He.
  destruct (set_params_success _ _ _ _ _ _ H)
    as (items & s & w & Hit & Hpos & _ & _ & _ & _ & _ & ->).
  rewrite (entries_iter _ _ He) in Hit. inversion Hit; subst items.
  inversion Hpos as [|? ? Hx Hrest]; subst.
  inversion Hrest as [|? ? Hy _]; subst. simpl in Hx, Hy.
  exists (a / b). split.
  - rewrite (r0_stored
               {| sol := sol self; p := p_; pop := SNum s; w0 := w;
                  pcov := pcov self; fit_input := fit_input self |}
               (SNum (Fin a)) (SNum (Fin b)) rest (Fin a) (Fin b) He
               eq_refl eq_refl Hy).
    cbn [quotient_overflows]. rewrite andb_false_r.
    now rewrite div_fin_positive.
  - split; [reflexivity|]. split; intros Hlt.
    + assert (Hm : 1 * b < a / b * b)
        by (apply Qmult_lt_compat_r; assumption).
      assert (E : a / b * b == a) by (field; lra).
      rewrite E in Hm. lra.
    + apply Qlt_shift_div_l; [exact Hy|lra].
Qed.

Lemma r0_threshold_witness :
  exists v,
    r0 base_ready = (Returns (Value (Fin v)), base_ready) /\
    v == (95 # 100) / (38 # 100) /\
    (1 < v <-> (38 # 100) < (95 # 100)).
Proof.
  apply (r0_threshold BaseModel base_params base_conds init Self base_ready
           (95 # 100) (38 # 100)
           [SNum (ratio 1 10); SNum (ratio 2 10)]);
    reflexivity.
Defined.

(** X7: on a variant that declares fewer than two parameters, [r0] after a
    successful [set_params] raises IndexError and leaves the instance as it
    is. *)
Theorem r0_needs_two_parameters K p_ ic self r self' :
  (NUM_PARAMS K < 2)%nat ->
  set_params K p_ ic self = (Returns r, self') ->
  r0 self' = (Raises IndexError, self').
Proof.
  intros Hn H.
  destruct (set_params_success _ _ _ _ _ _ H)
    as (items & s & w & Hit & Hpos & Hlen & _ & _ & _ & _ & ->).
  unfold r0, bind, get, lift. cbn [p].
  rewrite (py_getitem_iter _ _ 0 Hit), (py_getitem_iter _ _ 1 Hit).
  destruct items as [|x [|y rest]]; simpl in Hlen; try lia; simpl.
  - reflexivity.
  - reflexivity.
Qed.

Lemma r0_needs_two_parameters_witness :
  (NUM_PARAMS OneParameter < 2)%nat /\
  fst (set_params OneParameter one_param two_conds init) = Returns Self /\
  r0 (snd (set_params OneParameter one_param two_conds init))
  = (Raises IndexError, snd (set_params OneParameter one_param two_conds init)).
Proof.
  split; [simpl; lia|]. split; [reflexivity|].
  apply (r0_needs_two_parameters OneParameter one_param two_conds init Self).
  - simpl. lia.
  - reflexivity.
Defined.

(** ** [call_solver] and [solve] *)

(** X8: [call_solver] hands on an exception of [odeint] as it is; when
    [odeint] returns one row per time, the result has those rows, each with
    its time put in front: the first column is [t], and dropping it gives
    back what [odeint] returned. *)
Theorem call_solver_prepends_time
  (odeint : deriv -> pyobj -> list float64 -> pyobj -> float64 -> float64 ->
            outcome matrix)
  func p_ w0_ t :
  (forall e, odeint func w0_ t p_ ABSERR RELERR = Raises e ->
             call_solver odeint func p_ w0_ t = Raises e) /\
  (forall y, odeint func w0_ t p_ ABSERR RELERR = Returns y ->
             List.length y = List.length t ->
             exists rows,
               call_solver odeint func p_ w0_ t = Returns rows /\
               List.length rows = List.length t /\
               column 0 rows = Returns t /\
               map (@tl float64) rows = y).
Proof.
  split.
  - intros e He. unfold call_solver. now rewrite He.
  - intros y Hy Hlen. unfold call_solver. rewrite Hy.
    destruct (insert_column_spec t y Hlen) as (rows & Hins & Hl & Hc & Ht).
    exists rows. repeat split; assumption.
Qed.

(** X9: [solve] is all or nothing: it either raises and leaves the instance
    exactly as it was, an earlier solution included, or returns [self]
    having replaced the solution and nothing else. *)
Theorem solve_all_or_nothing
  (odeint : deriv -> pyobj -> list float64 -> pyobj -> float64 -> float64 ->
            outcome matrix)
  K tf_days numpoints self :
  (exists e, solve odeint K tf_days numpoints self = (Raises e, self)) \/
  (exists rows,
     solve odeint K tf_days numpoints self =
     (Returns Self,
      {| sol := Some rows; p := p self; pop := pop self; w0 := w0 self;
         pcov := pcov self; fit_input := fit_input self |})).
Proof.
  unfold solve, bind, get_model, get, lift, ret, raise, set_sol.
  destruct (_model K) as [func|]; [|left; eauto].
  destruct (call_solver odeint func (p self) (w0 self)
              (linspace (Fin 0) tf_days numpoints)) as [rows|e];
    [|left; eauto].
  destruct (imul_tail (pop self) rows) as [rows'|e]; [|left; eauto].
  right. eauto.
Qed.

(** X10: on a variant without a derivative function, the base class among
    them, [solve] raises the exception of the [_model] property whatever
    the arguments and the stored parameters, before [odeint] is reached,
    and leaves the instance as it was. *)
Theorem solve_needs_model
  (odeint : deriv -> pyobj -> list float64 -> pyobj -> float64 -> float64 ->
            outcome matrix)
  K tf_days numpoints self :
  _model K = None ->
  solve odeint K tf_days numpoints self = (Raises Exception_, self).
Proof.
  intros H. unfold solve, bind, get_model. now rewrite H.
Qed.

Lemma solve_needs_model_witness :
  solve euler_odeint BaseModel (Fin 7) 7 base_ready
  = (Raises Exception_, base_ready).
Proof.
  exact (solve_needs_model euler_odeint BaseModel (Fin 7) 7 base_ready
           eq_refl).
Defined.

(** X11: a later [solve] does not depend on an earlier one: after any
    [solve] call, solving again raises or returns as solving directly would,
    and when it returns, the instance is the one that solving directly
    gives, the earlier solution gone. *)
Theorem solve_replaces_solution
  (odeint : deriv -> pyobj -> list float64 -> pyobj -> float64 -> float64 ->
            outcome matrix)
  K tf1 n1 tf2 n2 self :
  fst (solve odeint K tf2 n2 (snd (solve odeint K tf1 n1 self)))
  = fst (solve odeint K tf2 n2 self) /\
  forall r s,
    solve odeint K tf2 n2 (snd (solve odeint K tf1 n1 self)) = (Returns r, s) ->
    solve odeint K tf2 n2 self = (Returns r, s).
Proof.
  unfold solve, bind, get_model, get, lift, ret, raise, set_sol.
  destruct (_model K) as [func|]; [|split; [reflexivity|auto]].
  destruct (call_solver odeint func (p self) (w0 self)
              (linspace (Fin 0) tf1 n1)) as [rows1|e1];
    [|split; [reflexivity|auto]].
  destruct (imul_tail (pop self) rows1) as [rows1'|e1];
    [|split; [reflexivity|auto]].
  cbn [snd p w0 pop sol pcov fit_input].
  destruct (call_solver odeint func (p self) (w0 self)
              (linspace (Fin 0) tf2 n2)) as [rows2|e2];
    [|split; [reflexivity|intros r s H; discriminate H]].
  destruct (imul_tail (pop self) rows2);
    split; try reflexivity; intros r s H; try discriminate H; exact H.
Qed.

Lemma call_solver_prepends_time_witness :
  exists rows,
    call_solver euler_odeint sir_deriv (p two_ready) (w0 two_ready)
      (linspace (Fin 0) (Fin 10) 3) = Returns rows /\
    List.length rows = List.length (linspace (Fin 0) (Fin 10) 3) /\
    column 0 rows = Returns (linspace (Fin 0) (Fin 10) 3) /\
    map (@tl float64) rows = two_states.
Proof.
  apply (proj2 (call_solver_prepends_time euler_odeint sir_deriv
                  (p two_ready) (w0 two_ready)
                  (linspace (Fin 0) (Fin 10) 3)) two_states).
  - vm_compute. reflexivity.
  - reflexivity.
Defined.

(** ** Methods called out of order *)

(** X12: on an instance whose [set_params] was never called, [r0] raises
    TypeError, [solve] raises, [fit] raises before the optimiser is reached
    (TypeError with the default selector, IndexError with a given one), and
    [export] raises; [fetch] returns [None].  None of them changes the
    instance. *)
Theorem methods_before_set_params
  (odeint : deriv -> pyobj -> list float64 -> pyobj -> float64 -> float64 ->
            outcome matrix)
  (curve_fit : list float64 -> list float64 -> list float64 ->
               list float64 * list float64 -> optimizer)
  K self :
  p self = PyNone -> pop self = SNone -> sol self = None ->
  r0 self = (Raises TypeError, self) /\
  (forall tf_days numpoints,
     exists e, solve odeint K tf_days numpoints self = (Raises e, self)) /\
  (forall t_obs n_i_obs population,
     fit odeint curve_fit K t_obs n_i_obs population None self
     = (Raises TypeError, self) /\
     fit_trials odeint curve_fit K t_obs n_i_obs population None self = []) /\
  (forall t_obs n_i_obs population mask,
     fit odeint curve_fit K t_obs n_i_obs population (Some mask) self
     = (Raises IndexError, self) /\
     fit_trials odeint curve_fit K t_obs n_i_obs population (Some mask) self
     = []) /\
  (forall CSV_ROW suppress_header delimiter,
     export CSV_ROW suppress_header delimiter self
     = (Raises Exception_, self)) /\
  fetch self = (Returns None, self).
Proof.
  intros Hp Hpop Hsol. repeat split.
  - unfold r0, bind, get, lift. now rewrite Hp.
  - intros tf_days numpoints.
    unfold solve, bind, get_model, get, lift, ret, raise.
    destruct (_model K) as [func|]; [|eauto].
    destruct (call_solver odeint func (p self) (w0 self) _) as [rows|e];
      [|eauto].
    rewrite Hpop. simpl. eauto.
  - unfold fit, bind, get, lift. now rewrite Hp.
  - unfold fit_trials. now rewrite Hp.
  - unfold fit, bind, get, lift, ret. now rewrite Hp.
  - unfold fit_trials. now rewrite Hp.
  - intros CSV_ROW suppress_header delimiter.
    unfold export, bind, get. now rewrite Hsol.
  - unfold fetch, get. now rewrite Hsol.
Qed.

Lemma methods_before_set_params_witness :
  r0 init = (Raises TypeError, init) /\
  (forall tf_days numpoints,
     exists e, solve euler_odeint TwoCompartment tf_days numpoints init
               = (Raises e, init)) /\
  (forall t_obs n_i_obs population,
     fit euler_odeint scripted_fit TwoCompartment t_obs n_i_obs population
       None init = (Raises TypeError, init) /\
     fit_trials euler_odeint scripted_fit TwoCompartment t_obs n_i_obs
       population None init = []) /\
  (forall t_obs n_i_obs population mask,
     fit euler_odeint scripted_fit TwoCompartment t_obs n_i_obs population
       (Some mask) init = (Raises IndexError, init) /\
     fit_trials euler_odeint scripted_fit TwoCompartment t_obs n_i_obs
       population (Some mask) init = []) /\
  (forall CSV_ROW suppress_header delimiter,
     export CSV_ROW suppress_header delimiter init
     = (Raises Exception_, init)) /\
  fetch init = (Returns None, init).
Proof.
  exact (methods_before_set_params euler_odeint scripted_fit TwoCompartment
           init eq_refl eq_refl eq_refl).
Defined.

(** ** [fit], its selector *)

Lemma getitem_mask_mismatch arr mask :
  mask <> [] -> List.length mask <> List.length (array_floats arr) ->
  (exists a, arr = NdArray a) \/ (exists a, arr = NdIntArray a) ->
  getitem_mask arr mask = Raises IndexError.
Proof.
  intros Hne Hl [[a ->]|[a ->]]; cbn [getitem_mask array_floats] in *;
    unfold mask_select, index_fits; destruct mask as [|b mask];
    try congruence.
  - apply Nat.eqb_neq in Hl. now rewrite Hl.
  - rewrite length_map in Hl. apply Nat.eqb_neq in Hl. now rewrite Hl.
Qed.

(** X13: on a parameter vector of floats and 64-bit integers, a selector
    that is not the empty list and whose length is not the parameter count
    makes [fit] raise IndexError before the optimiser is reached; the
    instance is left as it was. *)
Theorem fit_selector_length
  (odeint : deriv -> pyobj -> list float64 -> pyobj -> float64 -> float64 ->
            outcome matrix)
  (curve_fit : list float64 -> list float64 -> list float64 ->
               list float64 * list float64 -> optimizer)
  K t_obs n_i_obs population mask self l :
  entries (p self) = Some l -> Forall number64 l ->
  mask <> [] -> List.length mask <> List.length l ->
  fit odeint curve_fit K t_obs n_i_obs population (Some mask) self
  = (Raises IndexError, self) /\
  fit_trials odeint curve_fit K t_obs n_i_obs population (Some mask) self = [].
Proof.
  intros He Hall Hne Hl.
  destruct (entries_array _ _ He Hall) as (arr & Ha & Hlen).
  rewrite <- Hlen in Hl.
  pose proof (getitem_mask_mismatch arr mask Hne Hl (np_array_array _ _ Ha))
    as Hg.
  split.
  - rewrite (fit_eq_given odeint curve_fit K t_obs n_i_obs population self
               arr mask Ha).
    now rewrite Hg.
  - unfold fit_trials. rewrite Ha. cbn [effective_index]. rewrite Hg.
    destruct (array_floats arr); reflexivity.
Qed.

Lemma fit_selector_length_witness :
  fit euler_odeint scripted_fit TwoCompartment obs_days obs_infected
    (Fin 1000) (Some [true]) two_ready = (Raises IndexError, two_ready) /\
  fit_trials euler_odeint scripted_fit TwoCompartment obs_days obs_infected
    (Fin 1000) (Some [true]) two_ready = [].
Proof.
  apply (fit_selector_length euler_odeint scripted_fit TwoCompartment
           obs_days obs_infected (Fin 1000) [true] two_ready
           [SNum (ratio 5 10); SNum (ratio 2 10)]).
  - reflexivity.
  - repeat constructor.
  - discriminate.
  - simpl. lia.
Defined.

(** X14: leaving [fit_index] out is selecting the first parameter and no
    other: on a non-empty parameter vector the call is the one with that
    selector given; on an empty one it raises IndexError. *)
Theorem fit_default_selector
  (odeint : deriv -> pyobj -> list float64 -> pyobj -> float64 -> float64 ->
            outcome matrix)
  (curve_fit : list float64 -> list float64 -> list float64 ->
               list float64 * list float64 -> optimizer)
  K t_obs n_i_obs population self l :
  entries (p self) = Some l ->
  match l with
  | [] =>
      fit odeint curve_fit K t_obs n_i_obs population None self
      = (Raises IndexError, self)
  | _ :: rest =>
      fit odeint curve_fit K t_obs n_i_obs population None self
      = fit odeint curve_fit K t_obs n_i_obs population
          (Some (true :: repeat false (List.length rest))) self
  end.
Proof.
  intros He.
  pose proof (py_len_iter _ _ (entries_iter _ _ He)) as Hn.
  unfold fit, bind, get, lift, ret. rewrite Hn.
  destruct l as [|x rest]; reflexivity.
Qed.

Lemma fit_default_selector_witness :
  fit euler_odeint scripted_fit TwoCompartment obs_days obs_infected
    (Fin 1000) None two_ready
  = fit euler_odeint scripted_fit TwoCompartment obs_days obs_infected
      (Fin 1000) (Some [true; false]) two_ready.
Proof.
  exact (fit_default_selector euler_odeint scripted_fit TwoCompartment
           obs_days obs_infected (Fin 1000) two_ready
           [SNum (ratio 5 10); SNum (ratio 2 10)] eq_refl).
Defined.

(** ** [fit], what it leaves alone *)

Section FitFrame.

Variable odeint :
  deriv -> pyobj -> list float64 -> pyobj -> float64 -> float64 -> outcome matrix.
Variable K : ModelKind.
Variable mask : list bool.
Variable population : float64.
Variable t : list float64.
Hypothesis hook_idle : does_nothing (_update_ic K).

Lemma same_but_p_refl s : same_but_p s s.
Proof. repeat split. Qed.

Lemma same_but_p_trans s1 s2 s3 :
  same_but_p s1 s2 -> same_but_p s2 s3 -> same_but_p s1 s3.
Proof.
  intros (A1 & A2 & A3 & A4 & A5) (B1 & B2 & B3 & B4 & B5).
  repeat split; congruence.
Qed.

(** a trial changes the parameters at most *)
Lemma function_handle_frame par self :
  same_but_p self
    (snd (function_handle odeint K mask population t par self)).
Proof.
  unfold function_handle, bind, get, lift, set_p.
  destruct (np_array (p self)) as [b|e]; [|apply same_but_p_refl].
  destruct (setitem_mask b mask par) as [params|e]; [|apply same_but_p_refl].
  rewrite hook_idle. unfold get_model.
  destruct (_model K) as [func|]; [|repeat split].
  unfold ret. cbn [p w0 fit_input].
  destruct (call_solver odeint func params (w0 self) t);
    repeat split.
Qed.

Lemma run_optimizer_same_but_p o self :
  same_but_p self
    (snd (run_optimizer (function_handle odeint K mask population t) o self)).
Proof.
  revert self. induction o as [par k IH|par_opt cov|e]; intros self;
    simpl; try apply same_but_p_refl.
  unfold bind. pose proof (function_handle_frame par self) as Hf.
  destruct (function_handle odeint K mask population t par self)
    as [[y|e] s1]; simpl in Hf; [|exact Hf].
  apply (same_but_p_trans _ s1); [exact Hf|apply IH].
Qed.

End FitFrame.

(** X15: with an [_update_ic] that does nothing, as in the base class, [fit]
    never touches the stored solution, the population, the normalized
    initial conditions or the observable index, whatever its outcome: a
    solution computed before the fit stays as it is.  The covariance changes
    only when [fit] returns. *)
Theorem fit_leaves_solution
  (odeint : deriv -> pyobj -> list float64 -> pyobj -> float64 -> float64 ->
            outcome matrix)
  (curve_fit : list float64 -> list float64 -> list float64 ->
               list float64 * list float64 -> optimizer)
  K t_obs n_i_obs population fit_index self :
  does_nothing (_update_ic K) ->
  let out := fit odeint curve_fit K t_obs n_i_obs population fit_index self in
  sol (snd out) = sol self /\ pop (snd out) = pop self /\
  w0 (snd out) = w0 self /\ fit_input (snd out) = fit_input self /\
  (forall e, fst out = Raises e -> pcov (snd out) = pcov self).
Proof.
  intros Hhook out. subst out.
  destruct (np_array (p self)) as [arr|e] eqn:Hb.
  2:{ destruct (fit_no_vector odeint curve_fit K t_obs n_i_obs population
                  fit_index self e Hb) as [e' He'].
      rewrite He'. repeat split. }
  assert (Hgen : forall mask,
    let out :=
      fit odeint curve_fit K t_obs n_i_obs population (Some mask) self in
    sol (snd out) = sol self /\ pop (snd out) = pop self /\
    w0 (snd out) = w0 self /\ fit_input (snd out) = fit_input self /\
    (forall e, fst out = Raises e -> pcov (snd out) = pcov self)).
  { intros mask.
    rewrite (fit_eq_given odeint curve_fit K t_obs n_i_obs population self
               arr mask Hb).
    destruct (getitem_mask arr mask) as [sel|e]; [|repeat split].
    pose proof (run_optimizer_same_but_p odeint K mask population t_obs Hhook
                  (curve_fit t_obs n_i_obs (array_floats sel)
                     (fit_bounds (List.length (array_floats sel))))
                  self) as (A1 & A2 & A3 & A4 & A5).
    destruct (run_optimizer _ _ self) as [[[par_opt cov]|e] s1];
      simpl in A1, A2, A3, A4, A5.
    - destruct (setitem_mask (p s1) mask par_opt); simpl;
        repeat split; auto; intros e0 He0; discriminate He0.
    - simpl. repeat split; auto. }
  destruct fit_index as [idx|]; [apply Hgen|].
  rewrite (fit_eq_default odeint curve_fit K t_obs n_i_obs population self
             arr Hb).
  destruct (array_floats arr); [repeat split|apply Hgen].
Qed.

Lemma fit_leaves_solution_witness :
  let out := fit euler_odeint scripted_failure TwoCompartment obs_days
               obs_infected (Fin 1000) None two_ready in
  sol (snd out) = sol two_ready /\ pop (snd out) = pop two_ready /\
  w0 (snd out) = w0 two_ready /\ fit_input (snd out) = fit_input two_ready /\
  (forall e, fst out = Raises e -> pcov (snd out) = pcov two_ready).
Proof.
  apply (fit_leaves_solution euler_odeint scripted_failure TwoCompartment
           obs_days obs_infected (Fin 1000) None two_ready).
  intros s. reflexivity.
Defined.

(** ** [fit] on a variant without a derivative function *)

(** X16: on a variant without a derivative function and with an [_update_ic]
    that does nothing, the base class itself, and on a parameter vector of
    floats, a [fit] whose optimiser evaluates the objective fails with the
    exception of the [_model] property at the first trial, and by then
    [self.p] has been replaced by an array holding that trial. *)
Theorem fit_needs_model
  (odeint : deriv -> pyobj -> list float64 -> pyobj -> float64 -> float64 ->
            outcome matrix)
  (curve_fit : list float64 -> list float64 -> list float64 ->
               list float64 * list float64 -> optimizer)
  K t_obs n_i_obs population mask self a par_fit k :
  _model K = None ->
  does_nothing (_update_ic K) ->
  numeric_items (p self) = Some a ->
  List.length mask = List.length a ->
  curve_fit t_obs n_i_obs (select a mask) (fit_bounds (count_true mask))
  = Evaluate par_fit k ->
  List.length par_fit = count_true mask ->
  fit odeint curve_fit K t_obs n_i_obs population (Some mask) self =
  (Raises Exception_,
   {| sol := sol self; p := NdArray (overwrite a mask par_fit);
      pop := pop self; w0 := w0 self; pcov := pcov self;
      fit_input := fit_input self |}).
Proof.
  intros Hm Hhook Hb Hl Hcf Hpar.
  pose proof (numeric_items_array _ _ Hb) as Ha.
  assert (Hfits : index_fits mask (List.length a) = true)
    by (apply index_fits_spec; right; exact Hl).
  rewrite (fit_eq_given odeint curve_fit K t_obs n_i_obs population self
             (NdArray a) mask Ha).
  cbn [getitem_mask]. unfold mask_select. rewrite Hfits.
  cbn [array_floats].
  rewrite (select_length a mask (or_intror Hl)), Hcf. cbn [run_optimizer].
  unfold bind at 1.
  assert (Hf : function_handle odeint K mask population t_obs par_fit self =
    (Raises Exception_,
     {| sol := sol self; p := NdArray (overwrite a mask par_fit);
        pop := pop self; w0 := w0 self; pcov := pcov self;
        fit_input := fit_input self |})).
  { unfold function_handle, bind, get, lift, set_p. rewrite Ha.
    cbn [setitem_mask]. unfold mask_assign.
    rewrite Hfits, <- Hpar, broadcast_to_exact.
    rewrite Hhook. unfold get_model. rewrite Hm. reflexivity. }
  rewrite Hf. reflexivity.
Qed.

Lemma fit_needs_model_witness :
  fit euler_odeint scripted_fit BaseModel obs_days obs_infected (Fin 1000)
    (Some [true; false; false; false]) base_ready =
  (Raises Exception_,
   {| sol := None;
      p := NdArray [ratio 95 100; ratio 38 100; ratio 1 10; ratio 2 10];
      pop := pop base_ready; w0 := w0 base_ready; pcov := None;
      fit_input := None |}).
Proof.
  apply (fit_needs_model euler_odeint scripted_fit BaseModel obs_days
           obs_infected (Fin 1000) [true; false; false; false] base_ready
           [ratio 95 100; ratio 38 100; ratio 1 10; ratio 2 10]
           [ratio 95 100]
           (fun _ => Evaluate (map (fun x => F64.add x (ratio 1 10))
                                 [ratio 95 100])
              (fun _ => Converged (map (fun x => F64.add x (ratio 1 20))
                                     [ratio 95 100]) [[ratio 1 100]])));
    try reflexivity.
  intros s. reflexivity.
Defined.

(** ** [export] and [fetch] *)

Lemma set_params_sol K p_ ic self :
  sol (snd (set_params K p_ ic self)) = sol self.
Proof.
  destruct (set_params_validation K p_ ic self) as [H|(items & Hit & Hpos)].
  - now rewrite H.
  - rewrite (set_params_paths K _ ic _ self Hit Hpos).
    destruct (negb (List.length items =? NUM_PARAMS K)%nat); [reflexivity|].
    destruct (py_len ic) as [k|e]; [|reflexivity].
    destruct (negb (k =? NUM_IC K)%nat); [reflexivity|].
    destruct (np_sum ic) as [s|e]; [|reflexivity].
    destruct (np_truediv ic (SNum s)); reflexivity.
Qed.

(** X17: after a [solve] that returned, [fetch] returns the stored solution
    and [export] hands exactly that solution to [np.savetxt], with the
    delimiter it was given; unless the header is suppressed, the header is
    the column names joined by commas, whatever the delimiter, and the
    comment prefix is empty.  Neither changes the instance. *)
Theorem export_after_solve
  (odeint : deriv -> pyobj -> list float64 -> pyobj -> float64 -> float64 ->
            outcome matrix)
  K tf_days numpoints self r self' CSV_ROW suppress_header delimiter :
  solve odeint K tf_days numpoints self = (Returns r, self') ->
  exists rows,
    fetch self' = (Returns (Some rows), self') /\
    export CSV_ROW suppress_header delimiter self' =
    (Returns
       {| st_data := rows; st_delimiter := delimiter;
          st_comments := if suppress_header then None else Some EmptyString;
          st_header := if suppress_header then None
                       else Some (join_commas CSV_ROW) |},
     self').
Proof.
  unfold solve, bind, get_model, get, lift, ret, raise, set_sol.
  destruct (_model K) as [func|]; [|discriminate].
  destruct (call_solver odeint func (p self) (w0 self) _) as [rows|e];
    [|discriminate].
  destruct (imul_tail (pop self) rows) as [rows'|e]; [|discriminate].
  intros H. inversion H; subst. exists rows'.
  unfold fetch, export, bind, get, ret. cbn [sol].
  split; [reflexivity|]. destruct suppress_header; reflexivity.
Qed.

Lemma export_after_solve_witness :
  exists rows,
    fetch (snd (solve euler_odeint TwoCompartment (Fin 10) 3 two_ready))
    = (Returns (Some rows),
       snd (solve euler_odeint TwoCompartment (Fin 10) 3 two_ready)) /\
    export two_csv_row false ";"
      (snd (solve euler_odeint TwoCompartment (Fin 10) 3 two_ready)) =
    (Returns
       {| st_data := rows; st_delimiter := ";";
          st_comments := Some EmptyString;
          st_header := Some "Days,S,I"%string |},
     snd (solve euler_odeint TwoCompartment (Fin 10) 3 two_ready)).
Proof.
  apply (export_after_solve euler_odeint TwoCompartment (Fin 10) 3 two_ready
           Self _ two_csv_row false ";").
  vm_compute. reflexivity.
Defined.

(** X18: [set_params] does not make a solution: on an instance without one,
    [export] after [set_params], whatever that call's outcome, raises and
    leaves the instance as [set_params] left it. *)
Theorem export_needs_solve K p_ ic self CSV_ROW suppress_header delimiter :
  sol self = None ->
  export CSV_ROW suppress_header delimiter (snd (set_params K p_ ic self))
  = (Raises Exception_, snd (set_params K p_ ic self)).
Proof.
  intros Hsol. unfold export, bind, get.
  now rewrite set_params_sol, Hsol.
Qed.

Lemma export_needs_solve_witness :
  export two_csv_row false ","
    (snd (set_params TwoCompartment two_params two_conds init_two))
  = (Raises Exception_,
     snd (set_params TwoCompartment two_params two_conds init_two)).
Proof.
  exact (export_needs_solve TwoCompartment two_params two_conds init_two
           two_csv_row false "," eq_refl).
Defined.

(** ** [r0] after [fit] *)

(** a [fit] that returns leaves an array of the length the parameter vector
    had *)
Lemma fit_returns_array
  (odeint : deriv -> pyobj -> list float64 -> pyobj -> float64 -> float64 ->
            outcome matrix)
  (curve_fit : list float64 -> list float64 -> list float64 ->
               list float64 * list float64 -> optimizer)
  K t_obs n_i_obs population fit_index self r self' arr :
  keeps_p (_update_ic K) ->
  np_array (p self) = Returns arr ->
  fit odeint curve_fit K t_obs n_i_obs population fit_index self
  = (Returns r, self') ->
  np_array (p self') = Returns (p self') /\
  List.length (array_floats (p self')) = List.length (array_floats arr).
Proof.
  intros Hhook Hb.
  assert (Hgen : forall mask,
    fit odeint curve_fit K t_obs n_i_obs population (Some mask) self
    = (Returns r, self') ->
    np_array (p self') = Returns (p self') /\
    List.length (array_floats (p self')) = List.length (array_floats arr)).
  { intros mask H.
    rewrite (fit_eq_given odeint curve_fit K t_obs n_i_obs population self
               arr mask Hb) in H.
    destruct (getitem_mask arr mask) as [sel|e]; [|discriminate].
    destruct (run_optimizer_array odeint K mask population t_obs Hhook
                (curve_fit t_obs n_i_obs (array_floats sel)
                   (fit_bounds (List.length (array_floats sel))))
                self arr Hb) as (arr' & Ha' & Hlen).
    destruct (run_optimizer _ _ self) as [[[par_opt cov]|e] s1];
      [|discriminate].
    simpl in Ha'.
    destruct (setitem_mask (p s1) mask par_opt) as [p'|e] eqn:Hs;
      [|discriminate].
    inversion H; subst. cbn [p].
    assert (Hown : np_array (p s1) = Returns (p s1))
      by (destruct (p s1); simpl in Hs; try discriminate; reflexivity).
    rewrite Hown in Ha'. inversion Ha'; subst arr'.
    destruct (setitem_mask_array _ _ _ _ _ Hown Hs) as [Hp' Hl'].
    split; [exact Hp'|congruence]. }
  destruct fit_index as [idx|]; [apply Hgen|].
  rewrite (fit_eq_default odeint curve_fit K t_obs n_i_obs population self
             arr Hb).
  destruct (array_floats arr); [discriminate|apply Hgen].
Qed.

(** X19: after a [fit] that returned, on a vector of two or more floats and
    64-bit integers and with a hook that leaves the parameters alone, the
    stored parameters are an array and [r0] returns the quotient of its
    first two entries as numpy divides them (in exact arithmetic): it does
    not raise, a fitted second parameter of zero included. *)
Theorem r0_after_fit
  (odeint : deriv -> pyobj -> list float64 -> pyobj -> float64 -> float64 ->
            outcome matrix)
  (curve_fit : list float64 -> list float64 -> list float64 ->
               list float64 * list float64 -> optimizer)
  K t_obs n_i_obs population fit_index self r self' l :
  keeps_p (_update_ic K) ->
  entries (p self) = Some l -> Forall number64 l ->
  (2 <= List.length l)%nat ->
  fit odeint curve_fit K t_obs n_i_obs population fit_index self
  = (Returns r, self') ->
  exists x y rest a b,
    entries (p self') = Some (x :: y :: rest) /\
    held_by_list (p self') = false /\
    value_of x = Some a /\ value_of y = Some b /\
    r0 self' = (Returns (Value (F64.div a b)), self').
Proof.
  intros Hhook He Hall Hlen H.
  destruct (entries_array _ _ He Hall) as (arr & Hb & Hn).
  destruct (fit_returns_array odeint curve_fit K t_obs n_i_obs population
              fit_index self r self' arr Hhook Hb H) as [Hown Hl].
  rewrite Hn in Hl. unfold r0, bind, get, lift, ret.
  destruct (np_array_array _ _ Hown) as [[new E]|[new E]];
    rewrite E in *; cbn [array_floats] in Hl;
    try rewrite length_map in Hl;
    destruct new as [|x [|y rest]]; simpl in Hl; try lia.
  - exists (SNum x), (SNum y), (map SNum rest), x, y. repeat split.
  - exists (SInt x), (SInt y), (map SInt rest), (F64.of_Z x), (F64.of_Z y).
    repeat split.
Qed.

Lemma r0_after_fit_witness :
  exists x y rest a b,
    entries (p (snd (fit euler_odeint scripted_fit TwoCompartment obs_days
                       obs_infected (Fin 1000) None two_ready)))
    = Some (x :: y :: rest) /\
    held_by_list
      (p (snd (fit euler_odeint scripted_fit TwoCompartment obs_days
                 obs_infected (Fin 1000) None two_ready))) = false /\
    value_of x = Some a /\ value_of y = Some b /\
    r0 (snd (fit euler_odeint scripted_fit TwoCompartment obs_days
               obs_infected (Fin 1000) None two_ready))
    = (Returns (Value (F64.div a b)),
       snd (fit euler_odeint scripted_fit TwoCompartment obs_days
              obs_infected (Fin 1000) None two_ready)).
Proof.
  apply (r0_after_fit euler_odeint scripted_fit TwoCompartment obs_days
           obs_infected (Fin 1000) None two_ready Self _
           [SNum (ratio 5 10); SNum (ratio 2 10)] two_hook_keeps_p eq_refl).
  - repeat constructor.
  - simpl. lia.
  - vm_compute. reflexivity.
Defined.

(** ** Conservation of the population *)

Lemma fold_plus_times qs c :
  fold_left Qplus (map (fun x => x * c) qs) 0 == fold_left Qplus qs 0 * c.
Proof.
  induction qs as [|x qs IH]; simpl.
  - lra.
  - rewrite fold_plus_acc, IH, (fold_plus_acc qs (0 + x)). ring.
Qed.

Lemma scaled_row_sum qs c :
  fold_left Qplus qs 0 == 1 ->
  F64.eqv (F64.sum (map (fun v => F64.mul v (Fin c)) (map Fin qs))) (Fin c).
Proof.
  intros Hs. rewrite map_map. simpl.
  change (map (fun x => Fin (x * c)) qs)
    with (map (fun x => Fin ((fun y => y * c) x)) qs).
  rewrite <- (map_map (fun y => y * c) Fin), sum_fin. simpl.
  rewrite fold_plus_times, Hs. ring.
Qed.

(** X20: [solve] keeps the population: when the population is finite and
    [odeint] returns, one per time, rows of finite fractions that each sum
    to 1, the compartments of every stored row sum to the stored population
    (in exact arithmetic). *)
Theorem solve_conserves_population
  (odeint : deriv -> pyobj -> list float64 -> pyobj -> float64 -> float64 ->
            outcome matrix)
  K tf_days numpoints self func P ys :
  _model K = Some func ->
  pop self = SNum (Fin P) ->
  odeint func (w0 self) (linspace (Fin 0) tf_days numpoints) (p self)
    ABSERR RELERR = Returns (map (map Fin) ys) ->
  List.length ys = numpoints ->
  Forall (fun qs => fold_left Qplus qs 0 == 1) ys ->
  exists rows,
    sol (snd (solve odeint K tf_days numpoints self)) = Some rows /\
    List.length rows = numpoints /\
    Forall (fun row => F64.eqv (F64.sum (tl row)) (Fin P)) rows.
Proof.
  intros Hf HP Hode Hlen Hsum.
  set (tspan := linspace (Fin 0) tf_days numpoints) in *.
  destruct (insert_column_spec tspan (map (map Fin) ys))
    as (rows0 & Hins & Hl & Hc & Ht).
  { unfold tspan. now rewrite length_map, linspace_length. }
  destruct (scale_tail_spec (Fin P) rows0 tspan Hc) as [_ Ht'].
  exists (scale_tail (Fin P) rows0). split.
  { unfold solve, bind, get_model, get, lift, call_solver, ret, set_sol.
    rewrite Hf. cbv beta iota. fold tspan. rewrite Hode, Hins, HP.
    reflexivity. }
  split.
  { unfold scale_tail. rewrite length_map, Hl. unfold tspan.
    apply linspace_length. }
  rewrite Ht in Ht'.
  assert (Htl : Forall (fun tail => F64.eqv (F64.sum tail) (Fin P))
                  (map (@tl float64) (scale_tail (Fin P) rows0))).
  { rewrite Ht', map_map. apply Forall_forall. intros tail Hin.
    apply in_map_iff in Hin as (qs & <- & Hin).
    apply scaled_row_sum. rewrite Forall_forall in Hsum. now apply Hsum. }
  rewrite Forall_map in Htl. exact Htl.
Qed.

Lemma solve_conserves_population_witness :
  exists rows,
    sol (snd (solve euler_odeint AtRest (Fin 10) 3 rest_ready)) = Some rows /\
    List.length rows = 3%nat /\
    Forall (fun row => F64.eqv (F64.sum (tl row)) (Fin 1000)) rows.
Proof.
  apply (solve_conserves_population euler_odeint AtRest (Fin 10) 3 rest_ready
           rest_deriv 1000 rest_states).
  - reflexivity.
  - reflexivity.
  - vm_compute. reflexivity.
  - reflexivity.
  - repeat (apply Forall_cons; [vm_compute; reflexivity|]). apply Forall_nil.
Defined.
